(** * Airport lookup and nearest-airport query of aeroports_proximite.py

    A shallow embedding of the in-memory airport table and of the two
    functions that read it, [get_airport_info] and [find_nearby_airports],
    together with the module-level load that builds the table.

    Numbers are IEEE 754 binary64 values, as pandas and shapely use them:
    they are Rocq's primitive floats.  Text is held as its UTF-8 bytes.  The
    pandas, shapely and folium calls the program makes are modelled by their
    behaviour on the values this program passes to them; the table starts
    as the frame [pandas.read_csv] returns. *)

From Stdlib Require Import List String Ascii ZArith NArith Bool Lia Floats Sorted.
From Stdlib Require Import Permutation DecimalString.
Import ListNotations.

Local Open Scope string_scope.
Local Open Scope Z_scope.

(** ** Values read from the CSV source *)

(** A cell of a text column as [pandas.read_csv] yields it: a [str], or the
    missing marker (NaN), which it puts for an empty field and for its
    markers of a missing value (NA, NULL, nan and the like).  A comparison
    with a [str] does not tell the missing marker from a number, should a
    column hold numbers only: neither is equal to any [str]. *)
Definition cell : Type := option string.

(** A coordinate cell of that frame: a number ([Num]; an empty field is
    NaN), or a [str] when the column was not read as numbers ([Text]). *)
Inductive field : Type :=
| Num (f : float)
| Text (s : string).

(** One row of [df], the frame read from csv/airports.csv.  Only the six
    columns the program selects are named; the others are kept together. *)
Record CsvRow : Type := {
  ident : cell;
  csv_name : cell;
  csv_type : cell;
  latitude_deg : field;
  longitude_deg : field;
  csv_iso_country : cell;
  other_columns : list cell
}.

(** Comparison of a column cell with a [str], as pandas' [==] and [!=] do it
    element-wise: a missing cell is equal to no string. *)
Definition cell_eqb (c : cell) (s : string) : bool :=
  match c with
  | Some c' => String.eqb c' s
  | None => false
  end.

Definition cell_neb (c : cell) (s : string) : bool := negb (cell_eqb c s).

(** ** Unicode tables *)

(** The code points [str.upper] changes into one code point, as runs
    (first, last, step, image of the first): Unicode 14.0. *)
Definition upper_runs : list (N * N * N * N) :=
  [ (97, 122, 1, 65); (181, 181, 1, 924); (224, 246, 1, 192);
    (248, 254, 1, 216); (255, 255, 1, 376); (257, 303, 2, 256);
    (305, 305, 1, 73); (307, 311, 2, 306); (314, 328, 2, 313);
    (331, 375, 2, 330); (378, 382, 2, 377); (383, 383, 1, 83);
    (384, 384, 1, 579); (387, 389, 2, 386); (392, 392, 1, 391);
    (396, 396, 1, 395); (402, 402, 1, 401); (405, 405, 1, 502);
    (409, 409, 1, 408); (410, 410, 1, 573); (414, 414, 1, 544);
    (417, 421, 2, 416); (424, 424, 1, 423); (429, 429, 1, 428);
    (432, 432, 1, 431); (436, 438, 2, 435); (441, 441, 1, 440);
    (445, 445, 1, 444); (447, 447, 1, 503); (453, 453, 1, 452);
    (454, 454, 1, 452); (456, 456, 1, 455); (457, 457, 1, 455);
    (459, 459, 1, 458); (460, 460, 1, 458); (462, 476, 2, 461);
    (477, 477, 1, 398); (479, 495, 2, 478); (498, 498, 1, 497);
    (499, 499, 1, 497); (501, 501, 1, 500); (505, 543, 2, 504);
    (547, 563, 2, 546); (572, 572, 1, 571); (575, 576, 1, 11390);
    (578, 578, 1, 577); (583, 591, 2, 582); (592, 592, 1, 11375);
    (593, 593, 1, 11373); (594, 594, 1, 11376); (595, 595, 1, 385);
    (596, 596, 1, 390); (598, 599, 1, 393); (601, 601, 1, 399);
    (603, 603, 1, 400); (604, 604, 1, 42923); (608, 608, 1, 403);
    (609, 609, 1, 42924); (611, 611, 1, 404); (613, 613, 1, 42893);
    (614, 614, 1, 42922); (616, 616, 1, 407); (617, 617, 1, 406);
    (618, 618, 1, 42926); (619, 619, 1, 11362); (620, 620, 1, 42925);
    (623, 623, 1, 412); (625, 625, 1, 11374); (626, 626, 1, 413);
    (629, 629, 1, 415); (637, 637, 1, 11364); (640, 640, 1, 422);
    (642, 642, 1, 42949); (643, 643, 1, 425); (647, 647, 1, 42929);
    (648, 648, 1, 430); (649, 649, 1, 580); (650, 651, 1, 433);
    (652, 652, 1, 581); (658, 658, 1, 439); (669, 669, 1, 42930);
    (670, 670, 1, 42928); (837, 837, 1, 921); (881, 883, 2, 880);
    (887, 887, 1, 886); (891, 893, 1, 1021); (940, 940, 1, 902);
    (941, 943, 1, 904); (945, 961, 1, 913); (962, 962, 1, 931);
    (963, 971, 1, 931); (972, 972, 1, 908); (973, 974, 1, 910);
    (976, 976, 1, 914); (977, 977, 1, 920); (981, 981, 1, 934);
    (982, 982, 1, 928); (983, 983, 1, 975); (985, 1007, 2, 984);
    (1008, 1008, 1, 922); (1009, 1009, 1, 929); (1010, 1010, 1, 1017);
    (1011, 1011, 1, 895); (1013, 1013, 1, 917); (1016, 1016, 1, 1015);
    (1019, 1019, 1, 1018); (1072, 1103, 1, 1040); (1104, 1119, 1, 1024);
    (1121, 1153, 2, 1120); (1163, 1215, 2, 1162); (1218, 1230, 2, 1217);
    (1231, 1231, 1, 1216); (1233, 1327, 2, 1232); (1377, 1414, 1, 1329);
    (4304, 4346, 1, 7312); (4349, 4351, 1, 7357); (5112, 5117, 1, 5104);
    (7296, 7296, 1, 1042); (7297, 7297, 1, 1044); (7298, 7298, 1, 1054);
    (7299, 7300, 1, 1057); (7301, 7301, 1, 1058); (7302, 7302, 1, 1066);
    (7303, 7303, 1, 1122); (7304, 7304, 1, 42570); (7545, 7545, 1, 42877);
    (7549, 7549, 1, 11363); (7566, 7566, 1, 42950); (7681, 7829, 2, 7680);
    (7835, 7835, 1, 7776); (7841, 7935, 2, 7840); (7936, 7943, 1, 7944);
    (7952, 7957, 1, 7960); (7968, 7975, 1, 7976); (7984, 7991, 1, 7992);
    (8000, 8005, 1, 8008); (8017, 8023, 2, 8025); (8032, 8039, 1, 8040);
    (8048, 8049, 1, 8122); (8050, 8053, 1, 8136); (8054, 8055, 1, 8154);
    (8056, 8057, 1, 8184); (8058, 8059, 1, 8170); (8060, 8061, 1, 8186);
    (8112, 8113, 1, 8120); (8126, 8126, 1, 921); (8144, 8145, 1, 8152);
    (8160, 8161, 1, 8168); (8165, 8165, 1, 8172); (8526, 8526, 1, 8498);
    (8560, 8575, 1, 8544); (8580, 8580, 1, 8579); (9424, 9449, 1, 9398);
    (11312, 11359, 1, 11264); (11361, 11361, 1, 11360); (11365, 11365, 1, 570);
    (11366, 11366, 1, 574); (11368, 11372, 2, 11367); (11379, 11379, 1, 11378);
    (11382, 11382, 1, 11381); (11393, 11491, 2, 11392); (11500, 11502, 2, 11499);
    (11507, 11507, 1, 11506); (11520, 11557, 1, 4256); (11559, 11559, 1, 4295);
    (11565, 11565, 1, 4301); (42561, 42605, 2, 42560); (42625, 42651, 2, 42624);
    (42787, 42799, 2, 42786); (42803, 42863, 2, 42802); (42874, 42876, 2, 42873);
    (42879, 42887, 2, 42878); (42892, 42892, 1, 42891); (42897, 42899, 2, 42896);
    (42900, 42900, 1, 42948); (42903, 42921, 2, 42902); (42933, 42947, 2, 42932);
    (42952, 42954, 2, 42951); (42961, 42961, 1, 42960); (42967, 42969, 2, 42966);
    (42998, 42998, 1, 42997); (43859, 43859, 1, 42931); (43888, 43967, 1, 5024);
    (65345, 65370, 1, 65313); (66600, 66639, 1, 66560); (66776, 66811, 1, 66736);
    (66967, 66977, 1, 66928); (66979, 66993, 1, 66940); (66995, 67001, 1, 66956);
    (67003, 67004, 1, 66964); (68800, 68850, 1, 68736); (71872, 71903, 1, 71840);
    (93792, 93823, 1, 93760); (125218, 125251, 1, 125184) ]%N.

(** The code points [str.upper] changes into several. *)
Definition upper_special : list (N * list N) :=
  [ (223, [83; 83]); (329, [700; 78]); (496, [74; 780]);
    (912, [921; 776; 769]); (944, [933; 776; 769]); (1415, [1333; 1362]);
    (7830, [72; 817]); (7831, [84; 776]); (7832, [87; 778]);
    (7833, [89; 778]); (7834, [65; 702]); (8016, [933; 787]);
    (8018, [933; 787; 768]); (8020, [933; 787; 769]); (8022, [933; 787; 834]);
    (8064, [7944; 921]); (8065, [7945; 921]); (8066, [7946; 921]);
    (8067, [7947; 921]); (8068, [7948; 921]); (8069, [7949; 921]);
    (8070, [7950; 921]); (8071, [7951; 921]); (8072, [7944; 921]);
    (8073, [7945; 921]); (8074, [7946; 921]); (8075, [7947; 921]);
    (8076, [7948; 921]); (8077, [7949; 921]); (8078, [7950; 921]);
    (8079, [7951; 921]); (8080, [7976; 921]); (8081, [7977; 921]);
    (8082, [7978; 921]); (8083, [7979; 921]); (8084, [7980; 921]);
    (8085, [7981; 921]); (8086, [7982; 921]); (8087, [7983; 921]);
    (8088, [7976; 921]); (8089, [7977; 921]); (8090, [7978; 921]);
    (8091, [7979; 921]); (8092, [7980; 921]); (8093, [7981; 921]);
    (8094, [7982; 921]); (8095, [7983; 921]); (8096, [8040; 921]);
    (8097, [8041; 921]); (8098, [8042; 921]); (8099, [8043; 921]);
    (8100, [8044; 921]); (8101, [8045; 921]); (8102, [8046; 921]);
    (8103, [8047; 921]); (8104, [8040; 921]); (8105, [8041; 921]);
    (8106, [8042; 921]); (8107, [8043; 921]); (8108, [8044; 921]);
    (8109, [8045; 921]); (8110, [8046; 921]); (8111, [8047; 921]);
    (8114, [8122; 921]); (8115, [913; 921]); (8116, [902; 921]);
    (8118, [913; 834]); (8119, [913; 834; 921]); (8124, [913; 921]);
    (8130, [8138; 921]); (8131, [919; 921]); (8132, [905; 921]);
    (8134, [919; 834]); (8135, [919; 834; 921]); (8140, [919; 921]);
    (8146, [921; 776; 768]); (8147, [921; 776; 769]); (8150, [921; 834]);
    (8151, [921; 776; 834]); (8162, [933; 776; 768]); (8163, [933; 776; 769]);
    (8164, [929; 787]); (8166, [933; 834]); (8167, [933; 776; 834]);
    (8178, [8186; 921]); (8179, [937; 921]); (8180, [911; 921]);
    (8182, [937; 834]); (8183, [937; 834; 921]); (8188, [937; 921]);
    (64256, [70; 70]); (64257, [70; 73]); (64258, [70; 76]);
    (64259, [70; 70; 73]); (64260, [70; 70; 76]); (64261, [83; 84]);
    (64262, [83; 84]); (64275, [1348; 1350]); (64276, [1348; 1333]);
    (64277, [1348; 1339]); (64278, [1358; 1350]); (64279, [1348; 1341]) ]%N.

(** The zero of each set of decimal digits (category Nd). *)
Definition digit_zeros : list N :=
  [ 48; 1632; 1776; 1984; 2406; 2534; 2662; 2790;
    2918; 3046; 3174; 3302; 3430; 3558; 3664; 3792;
    3872; 4160; 4240; 6112; 6160; 6470; 6608; 6784;
    6800; 6992; 7088; 7232; 7248; 42528; 43216; 43264;
    43472; 43504; 43600; 44016; 65296; 66720; 68912; 69734;
    69872; 69942; 70096; 70384; 70736; 70864; 71248; 71360;
    71472; 71904; 72016; 72784; 73040; 73120; 92768; 92864;
    93008; 120782; 120792; 120802; 120812; 120822; 123200; 123632;
    125264; 130032 ]%N.

(** The white space of [str.isspace]. *)
Definition unicode_spaces : list N :=
  [ 9; 10; 11; 12; 13; 28; 29; 30; 31; 32;
    133; 160; 5760; 8192; 8193; 8194; 8195; 8196; 8197; 8198;
    8199; 8200; 8201; 8202; 8232; 8233; 8239; 8287; 12288 ]%N.

(** ** Text (Python str) *)

(** A [str] is held as its UTF-8 bytes.  [decode] gives its code points; a
    byte that is not part of a UTF-8 sequence, which no [str] holds, is
    carried through as a value above the code space. *)
Definition raw_byte (n : N) : N := (1114112 + n)%N.

Definition in_range (lo hi n : N) : bool := ((lo <=? n) && (n <=? hi))%N.

Definition seq2 (n0 n1 : N) : bool :=
  in_range 194 223 n0 && in_range 128 191 n1.

Definition seq3 (n0 n1 n2 : N) : bool :=
  ((n0 =? 224)%N && in_range 160 191 n1
   || in_range 225 236 n0 && in_range 128 191 n1
   || (n0 =? 237)%N && in_range 128 159 n1
   || in_range 238 239 n0 && in_range 128 191 n1)
  && in_range 128 191 n2.

Definition seq4 (n0 n1 n2 n3 : N) : bool :=
  ((n0 =? 240)%N && in_range 144 191 n1
   || in_range 241 243 n0 && in_range 128 191 n1
   || (n0 =? 244)%N && in_range 128 143 n1)
  && in_range 128 191 n2 && in_range 128 191 n3.

Definition cp2 (n0 n1 : N) : N := ((n0 - 192) * 64 + (n1 - 128))%N.
Definition cp3 (n0 n1 n2 : N) : N :=
  ((n0 - 224) * 4096 + (n1 - 128) * 64 + (n2 - 128))%N.
Definition cp4 (n0 n1 n2 n3 : N) : N :=
  ((n0 - 240) * 262144 + (n1 - 128) * 4096 + (n2 - 128) * 64 + (n3 - 128))%N.

Fixpoint decode (s : string) : list N :=
  match s with
  | EmptyString => []
  | String b0 s1 =>
      let n0 := N_of_ascii b0 in
      if (n0 <? 128)%N then n0 :: decode s1
      else
        match s1 with
        | EmptyString => [raw_byte n0]
        | String b1 s2 =>
            let n1 := N_of_ascii b1 in
            if seq2 n0 n1 then cp2 n0 n1 :: decode s2
            else
              match s2 with
              | EmptyString => raw_byte n0 :: decode s1
              | String b2 s3 =>
                  let n2 := N_of_ascii b2 in
                  if seq3 n0 n1 n2 then cp3 n0 n1 n2 :: decode s3
                  else
                    match s3 with
                    | EmptyString => raw_byte n0 :: decode s1
                    | String b3 s4 =>
                        let n3 := N_of_ascii b3 in
                        if seq4 n0 n1 n2 n3 then cp4 n0 n1 n2 n3 :: decode s4
                        else raw_byte n0 :: decode s1
                    end
              end
        end
  end.

Definition byte (n : N) : string := String (ascii_of_N n) EmptyString.

(** The UTF-8 bytes of a code point. *)
Definition encode_cp (c : N) : string :=
  (if c <? 128 then byte c
   else if c <? 2048 then byte (192 + c / 64) ++ byte (128 + c mod 64)
   else if c <? 65536 then
     byte (224 + c / 4096) ++ byte (128 + (c / 64) mod 64) ++ byte (128 + c mod 64)
   else if c <? 1114112 then
     byte (240 + c / 262144) ++ byte (128 + (c / 4096) mod 64) ++
     byte (128 + (c / 64) mod 64) ++ byte (128 + c mod 64)
   else byte (c - 1114112))%N.

Definition encode (l : list N) : string :=
  fold_right (fun c s => encode_cp c ++ s) EmptyString l.

(** The upper case of a code point. *)
Definition upper_cp (c : N) : list N :=
  match find (fun r => let '(lo, hi, step, _) := r in
                       in_range lo hi c && ((c - lo) mod step =? 0)%N)
          upper_runs with
  | Some (lo, _, _, image) => [(image + (c - lo))%N]
  | None =>
      match find (fun p => (fst p =? c)%N) upper_special with
      | Some (_, image) => image
      | None => [c]
      end
  end.

(** [s.upper()]. *)
Definition str_upper (s : string) : string :=
  encode (flat_map upper_cp (decode s)).

Arguments str_upper : simpl never.

(** ** [float(s)] of a str *)

Definition py_isspace (c : N) : bool :=
  (in_range 9 13 c || (c =? 32))%N.

Definition is_digit (c : N) : bool := in_range 48 57 c.

Definition decimal_digit (c : N) : option N :=
  match find (fun z => in_range z (z + 9) c) digit_zeros with
  | Some z => Some (c - z)%N
  | None => None
  end.

(** Digits and white space outside ASCII are read as their ASCII form, any
    other character outside ASCII as a question mark. *)
Definition to_ascii (c : N) : N :=
  if (c <? 127)%N then c
  else if existsb (N.eqb c) unicode_spaces then 32%N
  else match decimal_digit c with
       | Some d => (48 + d)%N
       | None => 63%N
       end.

Definition transform (l : list N) : list N :=
  if forallb (fun c => (c <? 128)%N) l then l else map to_ascii l.

Fixpoint lstrip_space (l : list N) : list N :=
  match l with
  | c :: l' => if py_isspace c then lstrip_space l' else l
  | [] => []
  end.

Definition strip_space (l : list N) : list N :=
  rev (lstrip_space (rev (lstrip_space l))).

(** An underscore is dropped when it stands between two digits; any other
    underscore is an error. *)
Fixpoint drop_underscores (prev : N) (l : list N) : option (list N) :=
  match l with
  | [] => if (prev =? 95)%N then None else Some []
  | c :: l' =>
      if (c =? 95)%N then
        if is_digit prev then drop_underscores c l' else None
      else if (prev =? 95)%N && negb (is_digit c) then None
      else option_map (cons c) (drop_underscores c l')
  end.

Fixpoint span_digits (l : list N) : list N * list N :=
  match l with
  | c :: l' =>
      if is_digit c then let '(d, r) := span_digits l' in (c :: d, r)
      else ([], l)
  | [] => ([], [])
  end.

Definition digits_value (d : list N) : Z :=
  fold_left (fun acc c => 10 * acc + Z.of_N (c - 48)) d 0.

Definition lower_ascii_cp (c : N) : N :=
  if in_range 65 90 c then (c + 32)%N else c.

Definition take_sign (l : list N) : bool * list N :=
  match l with
  | 43%N :: l' => (false, l')
  | 45%N :: l' => (true, l')
  | _ => (false, l)
  end.

(** The binary64 value nearest to m * 10^k, ties to even; beyond the range
    it is an infinity, below it a zero. *)
Definition decimal_to_sf (s : bool) (m k : Z) : spec_float :=
  match m with
  | Z.pos p =>
      if 0 <=? k then
        if 1100 <? Z.log2 m + 3 * k then S754_infinity s
        else binary_round prec emax s (Z.to_pos (m * 10 ^ k)) 0
      else
        if Z.log2 m + 1 + 3 * k <? -1080 then S754_zero s
        else
          let '(q, e, l) := SFdiv_core_binary prec emax m 0 (10 ^ (- k)) 0 in
          binary_round_aux prec emax s q e l
  | _ => S754_zero s
  end.

(** The number a text without sign, space or underscore spells. *)
Definition parse_unsigned (s : bool) (l : list N) : option spec_float :=
  let low := map lower_ascii_cp l in
  if list_eq_dec N.eq_dec low [105; 110; 102]%N then Some (S754_infinity s)
  else if list_eq_dec N.eq_dec low [105; 110; 102; 105; 110; 105; 116; 121]%N
  then Some (S754_infinity s)
  else if list_eq_dec N.eq_dec low [110; 97; 110]%N then Some S754_nan
  else
    let '(int_part, r1) := span_digits l in
    let '(frac_part, r2) :=
      match r1 with
      | 46%N :: r => span_digits r
      | _ => ([], r1)
      end in
    match int_part, frac_part with
    | [], [] => None
    | _, _ =>
        let m := digits_value (int_part ++ frac_part) in
        let shift := Z.of_nat (List.length frac_part) in
        match r2 with
        | [] => Some (decimal_to_sf s m (- shift))
        | e :: r3 =>
            if (e =? 101)%N || (e =? 69)%N then
              let '(es, r4) := take_sign r3 in
              let '(exp_part, r5) := span_digits r4 in
              match exp_part, r5 with
              | _ :: _, [] =>
                  let ex := digits_value exp_part in
                  Some (decimal_to_sf s m ((if es then - ex else ex) - shift))
              | _, _ => None
              end
            else None
        end
    end.

(** [float(s)]: [None] stands for its ValueError. *)
Definition float_of_str (s : string) : option float :=
  match drop_underscores 0 (strip_space (transform (decode s))) with
  | Some l =>
      let '(sg, l') := take_sign l in
      option_map SF2Prim (parse_unsigned sg l')
  | None => None
  end.

(** ** Outcomes of a call *)

(** The exceptions the program raises: the one of [Point] on a coordinate
    that [float] refuses, the ValueError of folium on a location that holds
    a NaN, and the AttributeError of [None.upper()]. *)
Inductive exn : Type :=
| BadCoordinate
| NaNLocation
| AttributeError.

Inductive outcome (A : Type) : Type :=
| Returns (a : A)
| Raises (e : exn).

Arguments Returns {A} a.
Arguments Raises {A} e.

Definition bind {A B : Type} (m : outcome A) (k : A -> outcome B) : outcome B :=
  match m with
  | Returns a => k a
  | Raises e => Raises e
  end.

Notation "x <- m ;; k" := (bind m (fun x => k))
  (at level 61, m at next level, right associativity).

(** ** Geometry (shapely) *)

Record Point : Type := { x : float; y : float }.

(** A [str] as an element of a numpy array: the NUL characters at its end
    are lost. *)
Fixpoint rstrip_nul (s : string) : string :=
  match s with
  | EmptyString => EmptyString
  | String c s' =>
      let t := rstrip_nul s' in
      if (N_of_ascii c =? 0)%N && String.eqb t EmptyString then EmptyString
      else String c t
  end.

(** The number [Point] makes of a coordinate: the number itself, or
    [float(s)] of a text. *)
Definition coordinate (c : field) : option float :=
  match c with
  | Num f => Some f
  | Text s => float_of_str (rstrip_nul s)
  end.

(** [Point(xy)] on a pair of column values: a text that [float] refuses
    makes the constructor raise. *)
Definition make_point (xy : field * field) : outcome Point :=
  match coordinate (fst xy), coordinate (snd xy) with
  | Some a, Some b => Returns {| x := a; y := b |}
  | _, _ => Raises BadCoordinate
  end.

(** [p.distance(q)] for two points: the planar distance of their
    coordinates, sqrt (dx * dx + dy * dy). *)
Definition distance (p q : Point) : float :=
  let dx := (x p - x q)%float in
  let dy := (y p - y q)%float in
  sqrt (dx * dx + dy * dy)%float.

(** ** The airport table *)

(** A row of [filtered_df] once the geometry column is added. *)
Record Airport : Type := {
  code_oaci : cell;
  name : cell;
  type_ : cell;
  lat : field;
  lon : field;
  iso_country : cell;
  geometry : Point
}.

(** The module-level [airports] frame.  Its rows never change after the
    load; the distance column is absent until a query assigns it. *)
Record GeoDataFrame : Type := {
  rows : list Airport;
  distance_column : option (list float)
}.

(** Lines 14 to 18 for one row: select and rename the columns, then build
    the point from (lon, lat). *)
Definition load_row (r : CsvRow) : outcome Airport :=
  g <- make_point (longitude_deg r, latitude_deg r) ;;
  Returns {| code_oaci := ident r;
             name := csv_name r;
             type_ := csv_type r;
             lat := latitude_deg r;
             lon := longitude_deg r;
             iso_country := csv_iso_country r;
             geometry := g |}.

Fixpoint load_rows (df : list CsvRow) : outcome (list Airport) :=
  match df with
  | [] => Returns []
  | r :: df' =>
      a <- load_row r ;;
      rest <- load_rows df' ;;
      Returns (a :: rest)
  end.

(** Lines 11 to 21: the table built at import time from the rows of the
    CSV file. *)
Definition load (df : list CsvRow) : outcome GeoDataFrame :=
  filtered_df <- load_rows df ;;
  Returns {| rows := filtered_df; distance_column := None |}.

(** ** Lookup by code *)

Record AirportInfo : Type := {
  info_name : cell;
  info_type : cell;
  info_geometry : Point
}.

(** [get_airport_info]: [None] is Python's None. *)
Definition get_airport_info (airports : GeoDataFrame) (code : string)
  : option AirportInfo :=
  let airport := filter (fun a => cell_eqb (code_oaci a) code) (rows airports) in
  match airport with
  | [] => None
  | a :: _ => Some {| info_name := name a;
                      info_type := type_ a;
                      info_geometry := geometry a |}
  end.

(** ** Selecting the rows of smallest distance (pandas) *)

Section Nsmallest.
Context {A : Type}.

(** A frame that has a distance column: each row with its distance. *)
Definition frame : Type := list (A * float).

Definition dropna (l : frame) : frame :=
  filter (fun r => negb (is_nan (snd r))) l.

Definition isna (l : frame) : frame :=
  filter (fun r => is_nan (snd r)) l.

(** Stable insertion: [r] comes from before the rows of [l] and stays
    in front of those of equal distance. *)
Fixpoint insert (r : A * float) (l : frame) : frame :=
  match l with
  | [] => [r]
  | h :: t => if (snd r <=? snd h)%float then r :: h :: t else h :: insert r t
  end.

Fixpoint sort_values (l : frame) : frame :=
  match l with
  | [] => []
  | h :: t => insert h (sort_values t)
  end.

(** [frame.nsmallest(n, "distance")] with the default keep="first": the
    first [n] rows in ascending order of distance, rows of equal distance
    in their original order, rows whose distance is NaN last; no row when
    [n] is not positive. *)
Definition nsmallest (n : Z) (l : frame) : frame :=
  if n <=? 0 then []
  else firstn (Z.to_nat n) (sort_values (dropna l) ++ isna l).
End Nsmallest.

Arguments frame A : clear implicits.

(** ** Nearest airports *)

(** [find_nearby_airports]: the returned frame, and the [airports] table
    as the call leaves it (line 49 assigns its distance column). *)
Definition find_nearby_airports (airports : GeoDataFrame) (geom : Point)
    (selected_type exclude_oaci : string) (max_results : Z)
  : frame Airport * GeoDataFrame :=
  let dist := map (fun a => distance (geometry a) geom) (rows airports) in
  let airports' := {| rows := rows airports; distance_column := Some dist |} in
  let with_distance := combine (rows airports') dist in
  let filtered_airports :=
    filter (fun r => cell_neb (code_oaci (fst r)) exclude_oaci) with_distance in
  let filtered_airports :=
    if negb (String.eqb selected_type "all")
    then filter (fun r => cell_eqb (type_ (fst r)) selected_type) filtered_airports
    else filtered_airports in
  (nsmallest max_results filtered_airports, airports').

(** The default of the [max_results] parameter. *)
Definition default_max_results : Z := 4.

(** The call seen from its caller: no statement of the function raises, so
    every call returns. *)
Definition find_nearby_airports_outcome (airports : GeoDataFrame) (geom : Point)
    (selected_type exclude_oaci : string) (max_results : Z)
  : outcome (frame Airport * GeoDataFrame) :=
  Returns (find_nearby_airports airports geom selected_type exclude_oaci max_results).

(** ** ASCII case *)

(** The upper case of the letters a to z; every other byte is kept. *)
Definition upper_ascii (c : ascii) : ascii :=
  let n := nat_of_ascii c in
  if ((97 <=? n) && (n <=? 122))%nat then ascii_of_nat (n - 32) else c.

Fixpoint upper (s : string) : string :=
  match s with
  | EmptyString => EmptyString
  | String c s' => String (upper_ascii c) (upper s')
  end.

(** The same on code points. *)
Definition ascii_upper_cp (c : N) : N :=
  if (c <? 128)%N then N_of_ascii (upper_ascii (ascii_of_N c)) else c.

(** ** Notions used to state the properties *)

(** The table rows paired with their distance to [geom]. *)
Definition with_distance (geom : Point) (l : list Airport) : frame Airport :=
  map (fun a => (a, distance (geometry a) geom)) l.

(** A row passes lines 50 to 54: its code differs from the excluded one and,
    unless the selected type is "all", its type is the selected one. *)
Definition qualifies (selected_type exclude_oaci : string) (a : Airport) : bool :=
  cell_neb (code_oaci a) exclude_oaci &&
  (String.eqb selected_type "all" || cell_eqb (type_ a) selected_type).

Definition candidates (airports : GeoDataFrame)
    (selected_type exclude_oaci : string) : list Airport :=
  filter (qualifies selected_type exclude_oaci) (rows airports).

(** The rows line 50 removes. *)
Definition excluded (airports : GeoDataFrame) (exclude_oaci : string)
  : list Airport :=
  filter (fun a => cell_eqb (code_oaci a) exclude_oaci) (rows airports).

(** The distance as the specification words it, on latitudes and
    longitudes in degrees. *)
Definition planar_distance (lat1 lon1 lat2 lon2 : float) : float :=
  sqrt ((lat1 - lat2) * (lat1 - lat2) + (lon1 - lon2) * (lon1 - lon2))%float.

(** A point whose coordinates are numbers: neither NaN nor infinite. *)
Definition finite_point (p : Point) : bool :=
  is_finite (x p) && is_finite (y p).

(** Both coordinates of a source row are numbers, or texts that [float]
    converts. *)
Definition numeric_row (r : CsvRow) : bool :=
  match coordinate (latitude_deg r), coordinate (longitude_deg r) with
  | Some _, Some _ => true
  | _, _ => false
  end.

(** The record the load builds from a source row. *)
Definition loaded_from (r : CsvRow) (a : Airport) : Prop :=
  code_oaci a = ident r /\ name a = csv_name r /\ type_ a = csv_type r /\
  lat a = latitude_deg r /\ lon a = longitude_deg r /\
  iso_country a = csv_iso_country r /\
  coordinate (lon a) = Some (x (geometry a)) /\
  coordinate (lat a) = Some (y (geometry a)).

(** *** The specification's loader and query validation, in its words *)

Definition is_space (c : ascii) : bool :=
  let n := nat_of_ascii c in
  ((n =? 32) || ((9 <=? n) && (n <=? 13)))%nat.

Fixpoint lstrip (s : string) : string :=
  match s with
  | EmptyString => EmptyString
  | String c s' => if is_space c then lstrip s' else s
  end.

Fixpoint rstrip (s : string) : string :=
  match s with
  | EmptyString => EmptyString
  | String c s' =>
      let t := rstrip s' in
      if is_space c && String.eqb t EmptyString then EmptyString else String c t
  end.

(** "trims/uppercases code". *)
Definition spec_normalize_code (s : string) : string :=
  str_upper (rstrip (lstrip s)).

(** A row the specification's loader keeps: its position parses and its
    code is not empty. *)
Definition spec_valid_row (r : CsvRow) : bool :=
  numeric_row r &&
  match ident r with
  | Some c => negb (String.eqb c EmptyString)
  | None => false
  end.

(** A query the specification accepts: a finite position within the
    latitude and longitude ranges and a positive limit. *)
Definition spec_valid_query (geom : Point) (limit : Z) : bool :=
  finite_point geom &&
  ((-90 <=? y geom) && (y geom <=? 90))%float &&
  ((-180 <=? x geom) && (x geom <=? 180))%float &&
  (0 <? limit).

(** *** Classes of binary64 values, on their specification *)

(** A number of sign [s], or a zero: not NaN, and not of the other sign. *)
Definition signed_sf (s : bool) (f : spec_float) : Prop :=
  match f with
  | S754_zero _ => True
  | S754_infinity s' => s' = s
  | S754_finite s' _ _ => s' = s
  | S754_nan => False
  end.

(** Neither NaN nor an infinity. *)
Definition finite_sf (f : spec_float) : Prop :=
  match f with
  | S754_zero _ | S754_finite _ _ _ => True
  | _ => False
  end.

(** Ascending order of the distance column. *)
Definition le_distance {A : Type} (r1 r2 : A * float) : Prop :=
  (snd r1 <=? snd r2)%float = true.

(** Ascending order of the numbers, any NaN after them. *)
Definition numbers_first {A : Type} (r1 r2 : A * float) : Prop :=
  le_distance r1 r2 \/ is_nan (snd r2) = true.

(** ** Sample data *)

Definition sample_row (code kind : string) (la lo : field) : CsvRow :=
  {| ident := Some code; csv_name := Some code; csv_type := Some kind;
     latitude_deg := la; longitude_deg := lo;
     csv_iso_country := Some "FR"; other_columns := [] |}.

(** A(large,0,0), B(medium,0,1), C(large,0,2). *)
Definition sample_source : list CsvRow :=
  [ sample_row "A" "large_airport" (Num 0) (Num 0);
    sample_row "B" "medium_airport" (Num 0) (Num 1);
    sample_row "C" "large_airport" (Num 0) (Num 2) ].

Definition sample_airport (code kind : string) (la lo : float) : Airport :=
  {| code_oaci := Some code; name := Some code; type_ := Some kind;
     lat := Num la; lon := Num lo; iso_country := Some "FR";
     geometry := {| x := lo; y := la |} |}.

Definition airport_A : Airport := sample_airport "A" "large_airport" 0 0.
Definition airport_B : Airport := sample_airport "B" "medium_airport" 0 1.
Definition airport_C : Airport := sample_airport "C" "large_airport" 0 2.

(** The table loaded from [sample_source], before any query. *)
Definition sample_airports : GeoDataFrame :=
  {| rows := [airport_A; airport_B; airport_C]; distance_column := None |}.

Definition origin : Point := {| x := 0; y := 0 |}.

(** A source row whose code field is empty. *)
Definition row_without_code : CsvRow :=
  {| ident := None; csv_name := Some "Unnamed strip"; csv_type := Some "small_airport";
     latitude_deg := Num 1; longitude_deg := Num 1;
     csv_iso_country := Some "FR"; other_columns := [] |}.

(** A source row whose latitude is a text that [float] refuses. *)
Definition row_bad_latitude : CsvRow :=
  sample_row "D" "large_airport" (Text "43N") (Num 3).

(** A source whose only code is in lower case. *)
Definition lowercase_source : list CsvRow :=
  [ sample_row "lfmk" "medium_airport" (Num 43) (Num 2) ].

(** A position outside the latitude range, and one that is not finite. *)
Definition out_of_range : Point := {| x := 1; y := 120 |}.
Definition not_finite : Point := {| x := infinity; y := 0 |}.

(** A source row whose latitude field is empty. *)
Definition row_without_latitude : CsvRow :=
  sample_row "N" "large_airport" (Num nan) (Num 5).

Definition airport_N : Airport :=
  {| code_oaci := Some "N"; name := Some "N"; type_ := Some "large_airport";
     lat := Num nan; lon := Num 5; iso_country := Some "FR";
     geometry := {| x := 5; y := nan |} |}.

(** A source row that repeats the code A at another place. *)
Definition row_second_A : CsvRow :=
  sample_row "A" "small_airport" (Num 0) (Num 7).

Definition airport_A2 : Airport := sample_airport "A" "small_airport" 0 7.

(** The sample source with a row that has no latitude put second, and the
    table loaded from it. *)
Definition nan_source : list CsvRow :=
  [ sample_row "A" "large_airport" (Num 0) (Num 0);
    row_without_latitude;
    sample_row "B" "medium_airport" (Num 0) (Num 1) ].

Definition nan_airports : GeoDataFrame :=
  {| rows := [airport_A; airport_N; airport_B]; distance_column := None |}.

(** The sample source followed by a second row of code A, and the table
    loaded from it. *)
Definition duplicate_source : list CsvRow :=
  (sample_source ++ [row_second_A])%list.

Definition duplicate_airports : GeoDataFrame :=
  {| rows := [airport_A; airport_B; airport_C; airport_A2];
     distance_column := None |}.

(** A source row whose coordinates are texts [float] converts. *)
Definition row_text_position : CsvRow :=
  sample_row "T" "large_airport" (Text "1_000") (Text " 2.5 ").

(** ** The map (folium) *)

(** [str(v)] of a column cell inside an f-string: the missing marker prints
    as nan. *)
Definition cell_str (c : cell) : string :=
  match c with
  | Some s => s
  | None => "nan"
  end.

Definition sign_str (s : bool) : string := if s then "-" else EmptyString.

(** The value m * 2^e in hundredths, rounded to the nearest integer, ties to
    the even one. *)
Definition hundredths (m : positive) (e : Z) : Z :=
  let n := 100 * Z.pos m in
  if 0 <=? e then n * 2 ^ e
  else
    let d := 2 ^ (- e) in
    let q := n / d in
    let r := n mod d in
    if 2 * r <? d then q
    else if d <? 2 * r then q + 1
    else if Z.even q then q else q + 1.

Definition digits (z : Z) : string :=
  NilZero.string_of_uint (N.to_uint (Z.to_N z)).

Definition fixed_2 (h : Z) : string :=
  digits (h / 100) ++ "." ++ digits (h mod 100 / 10) ++ digits (h mod 10).

(** The format [:.2f] of a binary64 value: its exact value rounded to two
    decimals. *)
Definition format_2f (f : float) : string :=
  match Prim2SF f with
  | S754_nan => "nan"
  | S754_infinity s => sign_str s ++ "inf"
  | S754_zero s => sign_str s ++ "0.00"
  | S754_finite s m e => sign_str s ++ fixed_2 (hundredths m e)
  end.

Record Icon : Type := { color : string; icon : string; prefix : string }.

Record Marker : Type := {
  marker_location : float * float;
  tooltip : cell;
  popup : cell;
  marker_icon : Icon
}.

(** A folium map: its centre and settings, the markers in the order they
    were added, and the bounds it was fitted to. *)
Record FoliumMap : Type := {
  location : float * float;
  zoom_start : Z;
  tiles : string;
  markers : list Marker;
  fitted_bounds : option (list (float * float))
}.

(** [marker.add_to(folium_map)]. *)
Definition add_to (mk : Marker) (m : FoliumMap) : FoliumMap :=
  {| location := location m; zoom_start := zoom_start m; tiles := tiles m;
     markers := markers m ++ [mk]; fitted_bounds := fitted_bounds m |}.

(** [folium_map.fit_bounds(bounds)]. *)
Definition fit_bounds (bounds : list (float * float)) (m : FoliumMap) : FoliumMap :=
  {| location := location m; zoom_start := zoom_start m; tiles := tiles m;
     markers := markers m; fitted_bounds := Some bounds |}.

Definition plane_icon (c : string) : Icon :=
  {| color := c; icon := "plane"; prefix := "fa" |}.

(** The marker of the airport looked up (lines 72 to 75). *)
Definition main_marker (lat lon : float) (airport_name : cell) : Marker :=
  {| marker_location := (lat, lon);
     tooltip := airport_name; popup := airport_name;
     marker_icon := plane_icon "blue" |}.

(** The position read from a row of the nearby frame (line 79). *)
Definition nearby_position (nearby_airport : Airport * float) : float * float :=
  (y (geometry (fst nearby_airport)), x (geometry (fst nearby_airport))).

(** The marker of a nearby airport (lines 80 to 85). *)
Definition nearby_marker (nearby_airport : Airport * float) : Marker :=
  let nearby_name := name (fst nearby_airport) in
  {| marker_location := nearby_position nearby_airport;
     tooltip := nearby_name;
     popup := Some (cell_str nearby_name ++ " (" ++
                    format_2f (snd nearby_airport) ++ " km)");
     marker_icon := plane_icon "green" |}.

(** A location that holds a NaN. *)
Definition nan_location (location : float * float) : bool :=
  is_nan (fst location) || is_nan (snd location).

(** [validate_location] of folium, which [folium.Map] and [folium.Marker]
    apply to their location: a location that holds a NaN is refused. *)
Definition validate_location (location : float * float)
  : outcome (float * float) :=
  if nan_location location
  then Raises NaNLocation
  else Returns location.

(** One turn of the loop of [create_map] (lines 78 to 86), on the map and
    the bounds built so far; nothing is done once a turn has raised. *)
Definition create_map_step (st : outcome (FoliumMap * list (float * float)))
    (nearby_airport : Airport * float)
  : outcome (FoliumMap * list (float * float)) :=
  st' <- st ;;
  _ <- validate_location (nearby_position nearby_airport) ;;
  Returns (add_to (nearby_marker nearby_airport) (fst st'),
           (snd st' ++ [nearby_position nearby_airport])%list).

(** Some location that [create_map] hands to folium holds a NaN: that of
    the airport, or that of a nearby row. *)
Definition nan_locations (lat lon : float) (nearby_airports : frame Airport)
  : bool :=
  nan_location (lat, lon) ||
  existsb (fun r => nan_location (nearby_position r)) nearby_airports.

(** [create_map]. *)
Definition create_map (lat lon : float) (airport_name : cell)
    (nearby_airports : frame Airport) : outcome FoliumMap :=
  _ <- validate_location (lat, lon) ;;
  let folium_map :=
    {| location := (lat, lon); zoom_start := 12; tiles := "CartoDB Positron";
       markers := []; fitted_bounds := None |} in
  let bounds := [(lat, lon)] in
  _ <- validate_location (lat, lon) ;;
  let folium_map := add_to (main_marker lat lon airport_name) folium_map in
  st <- fold_left create_map_step nearby_airports
          (Returns (folium_map, bounds)) ;;
  Returns (fit_bounds (snd st) (fst st)).

(** ** The request handler *)

(** A request as [index] reads it: its method, and the form fields in the
    order they were sent. *)
Record Request : Type := {
  method : string;
  form : list (string * string)
}.

(** [request.form.get(key)]: the first value of the key, [None] without. *)
Fixpoint form_get (key : string) (fields : list (string * string)) : option string :=
  match fields with
  | [] => None
  | (k, v) :: fields' => if String.eqb k key then Some v else form_get key fields'
  end.

(** [key in request.form]. *)
Definition form_has (key : string) (fields : list (string * string)) : bool :=
  existsb (fun kv => String.eqb (fst kv) key) fields.

(** The variables handed to the template index.html.  A name or a type is
    Python's None, or a cell of the table, or the not-found message. *)
Record TemplateContext : Type := {
  ctx_airport_name : option cell;
  ctx_airport_type : option cell;
  ctx_code_oaci : string;
  ctx_map_path : option string
}.

(** What a request can change: the [airports] table and the file
    static/map.html. *)
Record Server : Type := {
  srv_airports : GeoDataFrame;
  map_html : option FoliumMap
}.

(** [index]: the template variables, or the exception raised, and in
    both cases the server as the request leaves it. *)
Definition index (srv : Server) (request : Request)
  : (TemplateContext * Server) + (exn * Server) :=
  if String.eqb (method request) "POST" then
    match form_get "code_oaci" (form request) with
    | None => inr (AttributeError, srv)
    | Some typed =>
        let code_oaci := str_upper typed in
        let selected_type :=
          match form_get "airport_type" (form request) with
          | Some t => t
          | None => "all"
          end in
        let show_nearby := form_has "show_nearby" (form request) in
        match get_airport_info (srv_airports srv) code_oaci with
        | Some airport_info =>
            let geom := info_geometry airport_info in
            let '(nearby_airports, airports') :=
              if show_nearby
              then find_nearby_airports (srv_airports srv) geom
                     selected_type code_oaci default_max_results
              else ([], srv_airports srv) in
            match create_map (y geom) (x geom) (info_name airport_info)
                    nearby_airports with
            | Returns folium_map =>
                inl ({| ctx_airport_name := Some (info_name airport_info);
                        ctx_airport_type := Some (info_type airport_info);
                        ctx_code_oaci := code_oaci;
                        ctx_map_path := Some "static/map.html" |},
                     {| srv_airports := airports';
                        map_html := Some folium_map |})
            | Raises e =>
                inr (e, {| srv_airports := airports';
                           map_html := map_html srv |})
            end
        | None =>
            inl ({| ctx_airport_name := Some (Some "Aéroport non trouvé");
                    ctx_airport_type := None;
                    ctx_code_oaci := code_oaci;
                    ctx_map_path := None |},
                 srv)
        end
    end
  else
    inl ({| ctx_airport_name := None; ctx_airport_type := None;
            ctx_code_oaci := "LFMK"; ctx_map_path := None |},
         srv).

(** Requests handled one after the other, each on the server as the
    previous one left it. *)
Fixpoint serve (srv : Server) (requests : list Request) : Server :=
  match requests with
  | [] => srv
  | request :: requests' =>
      match index srv request with
      | inl (_, srv') => serve srv' requests'
      | inr (_, srv') => serve srv' requests'
      end
  end.

(** A form as the page sends it. *)
Definition post_request (typed selected_type : string) (show_nearby : bool)
  : Request :=
  {| method := "POST";
     form := ("code_oaci", typed) :: ("airport_type", selected_type) ::
             (if show_nearby then [("show_nearby", "on")] else []) |}.

(** [v] is the opposite of [u], or both are zeros. *)
Definition opposite_sf (u v : spec_float) : Prop :=
  v = SFopp u \/
  match u, v with
  | S754_zero _, S754_zero _ => True
  | _, _ => False
  end.

Definition sample_server : Server :=
  {| srv_airports := sample_airports; map_html := None |}.

(** The map of the sample airport B with its two neighbours. *)
Definition sample_map_B : FoliumMap :=
  {| location := (0%float, 1%float); zoom_start := 12;
     tiles := "CartoDB Positron";
     markers := [main_marker 0 1 (Some "B");
                 nearby_marker (airport_A, 1%float);
                 nearby_marker (airport_C, 1%float)];
     fitted_bounds := Some [(0%float, 1%float); (0%float, 0%float);
                            (0%float, 2%float)] |}.

Definition nan_server : Server :=
  {| srv_airports := nan_airports; map_html := None |}.

(** * Properties *)

(** ** Binary64 comparison and arithmetic *)

Section FloatFacts.

Lemma SFcompare_refl (s : spec_float) :
  s <> S754_nan -> SFcompare s s = Some Eq.
Proof.
  destruct s as [sg | sg | | sg m e]; simpl; intros H.
  - reflexivity.
  - now destruct sg.
  - now contradiction H.
  - destruct sg; rewrite Z.compare_refl, Pos.compare_cont_refl; reflexivity.
Qed.

Lemma is_nan_false (f : float) :
  is_nan f = false <-> Prim2SF f <> S754_nan.
Proof.
  unfold is_nan. rewrite eqb_spec. unfold SFeqb. split.
  - intros H E. rewrite E in H. discriminate H.
  - intros H. now rewrite SFcompare_refl.
Qed.

Lemma SFcompare_antisym (a b : spec_float) :
  SFcompare b a = option_map CompOpp (SFcompare a b).
Proof.
  destruct a as [sa | sa | | sa ma ea], b as [sb | sb | | sb mb eb];
    simpl; try reflexivity;
    try (destruct sa; reflexivity); try (destruct sb; reflexivity);
    try (destruct sa, sb; reflexivity).
  destruct sa, sb; simpl; try reflexivity;
    rewrite (Z.compare_antisym ea eb);
    destruct (ea ?= eb)%Z; simpl; try reflexivity;
    rewrite (Pos.compare_cont_antisym ma mb Eq); simpl; try reflexivity.
Qed.

Lemma SFcompare_some (a b : spec_float) :
  a <> S754_nan -> b <> S754_nan -> exists c, SFcompare a b = Some c.
Proof.
  destruct a, b; simpl; intros Ha Hb; try contradiction; eauto.
Qed.

(** The order is total on numbers. *)
Lemma leb_total (a b : float) :
  is_nan a = false -> is_nan b = false ->
  (a <=? b)%float = false -> (b <=? a)%float = true.
Proof.
  rewrite !is_nan_false, !leb_spec. unfold SFleb. intros Ha Hb.
  rewrite (SFcompare_antisym (Prim2SF a) (Prim2SF b)).
  destruct (SFcompare_some _ _ Ha Hb) as [c ->]. now destruct c.
Qed.

Lemma SFcompare_Eq (a b : spec_float) :
  SFcompare a b = Some Eq ->
  a <> S754_nan /\
  match a, b with
  | S754_zero _, S754_zero _ => True
  | _, _ => a = b
  end.
Proof.
  intros H. split; [intros ->; discriminate H | revert H].
  destruct a as [sa | sa | | sa ma ea], b as [sb | sb | | sb mb eb];
    simpl; trivial; try discriminate;
    try (destruct sa; discriminate); try (destruct sb; discriminate).
  - destruct sa, sb; intros [= ]; reflexivity.
  - destruct sa, sb; try discriminate;
      destruct (ea ?= eb) eqn:Ee; try discriminate;
      apply Z.compare_eq in Ee; subst;
      destruct (Pos.compare_cont Eq ma mb) eqn:Em; try discriminate;
      apply Pos.compare_eq in Em; subst; reflexivity.
Qed.

(** Two values equal to a third are in order. *)
Lemma eqb_leb (a b d : float) :
  (a =? d)%float = true -> (b =? d)%float = true -> (a <=? b)%float = true.
Proof.
  rewrite !eqb_spec, leb_spec. unfold SFeqb, SFleb.
  destruct (SFcompare (Prim2SF a) (Prim2SF d)) as [[ | | ] | ] eqn:Ea; try discriminate.
  destruct (SFcompare (Prim2SF b) (Prim2SF d)) as [[ | | ] | ] eqn:Eb; try discriminate.
  intros _ _. apply SFcompare_Eq in Ea, Eb.
  destruct Ea as [Na Ea], Eb as [Nb Eb].
  destruct (Prim2SF a) as [sa | sa | | sa ma ea], (Prim2SF d) as [sd | sd | | sd md ed];
    try discriminate; try (now contradiction Na);
    destruct (Prim2SF b) as [sb | sb | | sb mb eb];
    try discriminate; try (now contradiction Nb);
    try reflexivity; inversion Ea; inversion Eb; subst; simpl.
  all: repeat match goal with s : bool |- _ => destruct s end; simpl;
    rewrite ?Z.compare_refl, ?Pos.compare_cont_refl; reflexivity.
Qed.

Lemma eqb_not_nan (a d : float) : (a =? d)%float = true -> is_nan a = false.
Proof.
  rewrite eqb_spec. unfold SFeqb. intros H. apply is_nan_false.
  destruct (SFcompare (Prim2SF a) (Prim2SF d)) as [[ | | ] | ] eqn:E;
    try discriminate.
  now apply SFcompare_Eq in E.
Qed.

Lemma SFadd_comm (a b : spec_float) : SF64add a b = SF64add b a.
Proof.
  unfold SF64add.
  destruct a as [sa | sa | | sa ma ea], b as [sb | sb | | sb mb eb];
    simpl; try reflexivity; try (destruct sa, sb; reflexivity).
  now rewrite Z.min_comm, Z.add_comm.
Qed.

Lemma add_comm (a b : float) : (a + b)%float = (b + a)%float.
Proof.
  apply Prim2SF_inj. rewrite !add_spec. apply SFadd_comm.
Qed.

(** Rounding a non-negative mantissa never yields NaN and keeps the sign. *)
Lemma shr_1_nonneg mrs : 0 <= shr_m mrs -> 0 <= shr_m (shr_1 mrs).
Proof.
  destruct mrs as [m r s]. simpl.
  destruct m as [ | [p | p | ] | p]; simpl; lia.
Qed.

Lemma iter_pos_shr_1_nonneg p : forall mrs,
  0 <= shr_m mrs -> 0 <= shr_m (iter_pos shr_1 p mrs).
Proof.
  induction p as [p IH | p IH | ]; intros mrs H; simpl.
  - apply IH, IH, shr_1_nonneg, H.
  - apply IH, IH, H.
  - apply shr_1_nonneg, H.
Qed.

Lemma shr_fexp_nonneg prec emax m e l :
  0 <= m -> 0 <= shr_m (fst (shr_fexp prec emax m e l)).
Proof.
  intros H. unfold shr_fexp, shr.
  assert (H0 : 0 <= shr_m (shr_record_of_loc m l))
    by (destruct l as [ | [ | | ]]; exact H).
  destruct (fexp prec emax (Zdigits2 m + e) - e); simpl; trivial.
  now apply iter_pos_shr_1_nonneg.
Qed.

Lemma round_nearest_even_nonneg m l : 0 <= m -> 0 <= round_nearest_even m l.
Proof.
  intros H. destruct l as [ | [ | | ]]; simpl; try lia.
  destruct (Z.even m); lia.
Qed.

Lemma binary_round_aux_signed prec emax s m e l :
  0 <= m -> signed_sf s (binary_round_aux prec emax s m e l).
Proof.
  intros H. unfold binary_round_aux.
  pose proof (shr_fexp_nonneg prec emax m e l H) as H1.
  destruct (shr_fexp prec emax m e l) as [mrs' e']. simpl in H1.
  pose proof (shr_fexp_nonneg prec emax _ e' loc_Exact
                (round_nearest_even_nonneg _ (loc_of_shr_record mrs') H1)) as H2.
  destruct (shr_fexp prec emax _ e' loc_Exact) as [mrs'' e'']. simpl in H2.
  destruct (shr_m mrs'') as [ | p | p]; simpl; trivial.
  - now destruct (e'' <=? emax - prec).
  - lia.
Qed.

Lemma binary_normalize_not_nan prec emax m e sz :
  binary_normalize prec emax m e sz <> S754_nan.
Proof.
  destruct m as [ | p | p]; simpl; try discriminate;
    unfold binary_round;
    destruct (shl_align p e _) as [mz ez].
  - pose proof (binary_round_aux_signed prec emax false (Z.pos mz) ez loc_Exact) as H.
    intros E. rewrite E in H. apply H. lia.
  - pose proof (binary_round_aux_signed prec emax true (Z.pos mz) ez loc_Exact) as H.
    intros E. rewrite E in H. apply H. lia.
Qed.

Lemma SFsub_finite a b :
  finite_sf a -> finite_sf b -> SF64sub a b <> S754_nan.
Proof.
  unfold SF64sub.
  destruct a as [sa | sa | | sa ma ea], b as [sb | sb | | sb mb eb];
    simpl; try contradiction; intros _ _; try discriminate.
  - destruct sa, sb; discriminate.
  - apply binary_normalize_not_nan.
Qed.

Lemma SFmul_square a : a <> S754_nan -> signed_sf false (SF64mul a a).
Proof.
  unfold SF64mul. destruct a as [sa | sa | | sa ma ea]; simpl; intros H.
  - trivial.
  - now destruct sa.
  - now contradiction H.
  - rewrite xorb_nilpotent. apply binary_round_aux_signed. lia.
Qed.

Lemma SFadd_signed a b :
  signed_sf false a -> signed_sf false b -> signed_sf false (SF64add a b).
Proof.
  unfold SF64add.
  destruct a as [sa | sa | | sa ma ea], b as [sb | sb | | sb mb eb];
    simpl; try contradiction; intros Ha Hb; subst; simpl; trivial.
  - now destruct sa, sb.
  - set (ez := Z.min ea eb).
    destruct (shl_align ma ea ez) as [pa ea'], (shl_align mb eb ez) as [pb eb'].
    simpl. unfold binary_round.
    destruct (shl_align (pa + pb) ez _) as [mz ez'].
    apply binary_round_aux_signed. lia.
Qed.

Lemma SFsqrt_signed a : signed_sf false a -> SF64sqrt a <> S754_nan.
Proof.
  unfold SF64sqrt. destruct a as [sa | sa | | sa ma ea]; simpl;
    try contradiction; intros Ha; subst; try discriminate.
  unfold SFsqrt_core_binary.
  set (e' := Z.min _ _). set (m' := match ea - 2 * e' with Z.pos _ => _ | _ => _ end).
  assert (Hm : 0 <= m').
  { unfold m'. destruct (ea - 2 * e'); try lia.
    apply Z.shiftl_nonneg. lia. }
  pose proof (Z.sqrtrem_spec m' Hm) as Hs.
  destruct (Z.sqrtrem m') as [q r].
  set (l := if r =? 0 then _ else _).
  pose proof (binary_round_aux_signed prec emax false q e' l) as H.
  intros E. rewrite E in H. apply H. nia.
Qed.

Lemma is_finite_sf (f : float) : is_finite f = true -> finite_sf (Prim2SF f).
Proof.
  unfold is_finite. rewrite negb_true_iff, orb_false_iff. intros [Hn Hi].
  apply is_nan_false in Hn. unfold is_infinity in Hi.
  rewrite eqb_spec, abs_spec in Hi.
  destruct (Prim2SF f) as [s | s | | s m e]; simpl; trivial.
  - discriminate Hi.
  - now apply Hn.
Qed.

(** The distance of two points with finite coordinates is a number. *)
Lemma distance_not_nan (p q : Point) :
  finite_point p = true -> finite_point q = true ->
  is_nan (distance p q) = false.
Proof.
  unfold finite_point. rewrite !andb_true_iff.
  intros [Hpx Hpy] [Hqx Hqy].
  apply is_finite_sf in Hpx, Hpy, Hqx, Hqy.
  apply is_nan_false. unfold distance.
  rewrite sqrt_spec, add_spec, !mul_spec, !sub_spec.
  apply SFsqrt_signed, SFadd_signed; apply SFmul_square, SFsub_finite; assumption.
Qed.

(** The program's distance is the planar distance of the degree values. *)
Lemma distance_planar (p q : Point) :
  distance p q = planar_distance (y p) (x p) (y q) (x q).
Proof.
  unfold distance, planar_distance. now rewrite add_comm.
Qed.

End FloatFacts.

(** ** More on binary64 values *)

Lemma SFleb_trans (a b c : spec_float) :
  SFleb a b = true -> SFleb b c = true -> SFleb a c = true.
Proof.
  unfold SFleb, SFcompare.
  destruct a as [sa | sa | | sa ma ea], b as [sb | sb | | sb mb eb],
           c as [sc | sc | | sc mc ec];
    try discriminate; try reflexivity;
    repeat match goal with s : bool |- _ => destruct s end;
    try discriminate; try reflexivity;
    change (Pos.compare_cont Eq) with Pos.compare;
    destruct (Z.compare_spec ea eb), (Z.compare_spec eb ec), (Z.compare_spec ea ec);
    try discriminate; try reflexivity; try (exfalso; lia);
    destruct (Pos.compare_spec ma mb), (Pos.compare_spec mb mc), (Pos.compare_spec ma mc);
    simpl; try discriminate; try reflexivity; try (exfalso; lia).
Qed.

Lemma leb_trans (a b c : float) :
  (a <=? b)%float = true -> (b <=? c)%float = true -> (a <=? c)%float = true.
Proof. rewrite !leb_spec. apply SFleb_trans. Qed.

Lemma binary_round_aux_opp prec emax s m e l :
  binary_round_aux prec emax (negb s) m e l =
  SFopp (binary_round_aux prec emax s m e l).
Proof.
  unfold binary_round_aux.
  destruct (shr_fexp prec emax m e l) as [mrs' e'].
  destruct (shr_fexp prec emax _ e' loc_Exact) as [mrs'' e''].
  destruct (shr_m mrs''); simpl; trivial.
  now destruct (e'' <=? emax - prec).
Qed.

Lemma binary_normalize_opp prec emax z e :
  opposite_sf (binary_normalize prec emax z e false)
              (binary_normalize prec emax (- z) e false).
Proof.
  destruct z as [ | p | p]; simpl.
  - now right.
  - left. unfold binary_round. destruct (shl_align p e _) as [mz ez].
    apply (binary_round_aux_opp prec emax false).
  - left. unfold binary_round. destruct (shl_align p e _) as [mz ez].
    rewrite (binary_round_aux_opp prec emax false).
    now destruct (binary_round_aux prec emax false (Z.pos mz) ez loc_Exact) as [[|]|[|]| |[|]].
Qed.

Lemma SFsub_swap a b : opposite_sf (SF64sub a b) (SF64sub b a).
Proof.
  unfold SF64sub.
  destruct a as [sa | sa | | sa ma ea], b as [sb | sb | | sb mb eb]; simpl;
    try (left; reflexivity);
    try (left; destruct sa; reflexivity);
    try (left; destruct sb; reflexivity).
  - destruct sa, sb; simpl; (now right) || (now left).
  - destruct sa, sb; simpl; now left.
  - rewrite (Z.min_comm eb ea).
    match goal with |- opposite_sf (binary_normalize _ _ ?z _ _) (binary_normalize _ _ ?z' _ _) =>
      replace z' with (- z) by lia end.
    apply binary_normalize_opp.
Qed.

Lemma SFmul_opposite u v : opposite_sf u v -> SF64mul u u = SF64mul v v.
Proof.
  unfold SF64mul. intros [-> | H].
  - destruct u as [s | s | | s m e]; simpl; trivial;
      now rewrite !xorb_nilpotent.
  - destruct u as [s | s | | s m e], v as [s' | s' | | s' m' e'];
      try contradiction. simpl. now rewrite !xorb_nilpotent.
Qed.

(** The distance does not depend on which of the two points is the
    reference. *)
Lemma distance_sym (p q : Point) : distance p q = distance q p.
Proof.
  unfold distance. apply Prim2SF_inj.
  rewrite !sqrt_spec, !add_spec, !mul_spec, !sub_spec.
  now rewrite (SFmul_opposite _ _ (SFsub_swap (Prim2SF (x p)) (Prim2SF (x q)))),
              (SFmul_opposite _ _ (SFsub_swap (Prim2SF (y p)) (Prim2SF (y q)))).
Qed.

Lemma SFsqrt_signed_false a : signed_sf false a -> signed_sf false (SF64sqrt a).
Proof.
  unfold SF64sqrt. destruct a as [sa | sa | | sa ma ea]; simpl;
    try contradiction; intros Ha; subst; simpl; trivial.
  unfold SFsqrt_core_binary.
  set (e' := Z.min _ _). set (m' := match ea - 2 * e' with Z.pos _ => _ | _ => _ end).
  assert (Hm : 0 <= m').
  { unfold m'. destruct (ea - 2 * e'); try lia.
    apply Z.shiftl_nonneg. lia. }
  pose proof (Z.sqrtrem_spec m' Hm) as Hs.
  destruct (Z.sqrtrem m') as [q r].
  apply binary_round_aux_signed. nia.
Qed.

Lemma signed_false_nonneg (v : spec_float) :
  signed_sf false v -> SFleb (S754_zero false) v = true.
Proof.
  destruct v as [s | s | | s m e]; simpl; try contradiction; trivial;
    now intros ->.
Qed.

Lemma distance_nonneg (p q : Point) :
  finite_point p = true -> finite_point q = true ->
  (0 <=? distance p q)%float = true.
Proof.
  unfold finite_point. rewrite !andb_true_iff.
  intros [Hpx Hpy] [Hqx Hqy].
  apply is_finite_sf in Hpx, Hpy, Hqx, Hqy.
  rewrite leb_spec. change (Prim2SF 0) with (S754_zero false).
  apply signed_false_nonneg. unfold distance.
  rewrite sqrt_spec, add_spec, !mul_spec, !sub_spec.
  apply SFsqrt_signed_false, SFadd_signed; apply SFmul_square, SFsub_finite; assumption.
Qed.

Lemma SFsub_diag a : finite_sf a -> SF64sub a a = S754_zero false.
Proof.
  unfold SF64sub. destruct a as [s | s | | s m e]; simpl; try contradiction; intros _.
  - now destruct s.
  - now rewrite Z.sub_diag.
Qed.

Lemma distance_diag (p : Point) : finite_point p = true -> distance p p = 0%float.
Proof.
  unfold finite_point. rewrite andb_true_iff. intros [Hx Hy].
  apply is_finite_sf in Hx, Hy.
  unfold distance. apply Prim2SF_inj.
  rewrite sqrt_spec, add_spec, !mul_spec, !sub_spec.
  now rewrite !SFsub_diag.
Qed.

Lemma is_nan_true (f : float) : is_nan f = true -> Prim2SF f = S754_nan.
Proof.
  intros H. destruct (Prim2SF f) as [s | s | | s m e] eqn:E; trivial;
    assert (Hn : is_nan f = false) by (apply is_nan_false; rewrite E; discriminate);
    congruence.
Qed.

(** A NaN is below nothing. *)
Lemma leb_nan_l (a b : float) : is_nan a = true -> (a <=? b)%float = false.
Proof.
  intros H. rewrite leb_spec, (is_nan_true a H). reflexivity.
Qed.

(** ** Sorting and selection *)

Section SelectionFacts.
Context {A : Type}.
Implicit Types (r : A * float) (l : frame A).

Lemma insert_In r r' l : In r' (insert r l) <-> r' = r \/ In r' l.
Proof.
  induction l as [ | h t IH]; simpl.
  - intuition congruence.
  - destruct (snd r <=? snd h)%float; simpl; rewrite ?IH; intuition congruence.
Qed.

Lemma sort_values_In r l : In r (sort_values l) <-> In r l.
Proof.
  induction l as [ | h t IH]; simpl; [tauto | ].
  rewrite insert_In, IH. intuition congruence.
Qed.

Lemma insert_length r l : List.length (insert r l) = S (List.length l).
Proof.
  induction l as [ | h t IH]; simpl; trivial.
  destruct (snd r <=? snd h)%float; simpl; now rewrite ?IH.
Qed.

Lemma sort_values_length l : List.length (sort_values l) = List.length l.
Proof.
  induction l as [ | h t IH]; simpl; trivial.
  now rewrite insert_length, IH.
Qed.

(** Sorting is stable: the rows at a given distance keep their order. *)
Lemma insert_stable (d : float) (r : A * float) l :
  filter (fun r' => (snd r' =? d)%float) (insert r l) =
  filter (fun r' => (snd r' =? d)%float) (r :: l).
Proof.
  induction l as [ | h t IH]; trivial.
  simpl insert. destruct (snd r <=? snd h)%float eqn:E; trivial.
  simpl in *. rewrite IH.
  destruct (snd r =? d)%float eqn:Er; trivial.
  destruct (snd h =? d)%float eqn:Eh; trivial.
  now rewrite (eqb_leb _ _ _ Er Eh) in E.
Qed.

Lemma sort_values_stable (d : float) (l : frame A) :
  filter (fun r => (snd r =? d)%float) (sort_values l) =
  filter (fun r => (snd r =? d)%float) l.
Proof.
  induction l as [ | h t IH]; trivial.
  simpl sort_values. rewrite insert_stable. simpl. now rewrite IH.
Qed.

Lemma dropna_isna_length l :
  (List.length (dropna l) + List.length (isna l))%nat = List.length l.
Proof.
  unfold dropna, isna. induction l as [ | h t IH]; simpl; trivial.
  destruct (is_nan (snd h)); simpl; lia.
Qed.

Lemma dropna_isna_In r l : In r (dropna l ++ isna l) <-> In r l.
Proof.
  unfold dropna, isna. rewrite in_app_iff, !filter_In.
  destruct (is_nan (snd r)); simpl; intuition congruence.
Qed.

Lemma isna_nil l :
  Forall (fun r => is_nan (snd r) = false) l -> isna l = [].
Proof.
  unfold isna. induction 1 as [ | h t Hh _ IH]; simpl; trivial.
  now rewrite Hh.
Qed.

Lemma dropna_not_nan l : Forall (fun r => is_nan (snd r) = false) (dropna l).
Proof.
  unfold dropna. apply Forall_forall. intros r Hr.
  apply filter_In in Hr. now apply negb_true_iff.
Qed.

Lemma insert_HdRel r0 r l :
  le_distance r0 r -> HdRel le_distance r0 l -> HdRel le_distance r0 (insert r l).
Proof.
  intros H0 Hl. destruct l as [ | h t]; simpl.
  - now constructor.
  - destruct (snd r <=? snd h)%float; constructor; trivial.
    now inversion Hl.
Qed.

Lemma insert_Sorted r l :
  is_nan (snd r) = false ->
  Forall (fun r' => is_nan (snd r') = false) l ->
  Sorted le_distance l -> Sorted le_distance (insert r l).
Proof.
  intros Hr Hl Hs. induction l as [ | h t IH]; simpl.
  - repeat constructor.
  - inversion Hl as [ | ? ? Hh Ht]; subst.
    inversion Hs as [ | ? ? Hst Hhd]; subst.
    destruct (snd r <=? snd h)%float eqn:E.
    + constructor; [exact Hs | now constructor].
    + constructor; [now apply IH | ].
      apply insert_HdRel; trivial.
      unfold le_distance. now apply leb_total.
Qed.

Lemma sort_values_Sorted l :
  Forall (fun r => is_nan (snd r) = false) l ->
  Sorted le_distance (sort_values l).
Proof.
  induction 1 as [ | h t Hh Ht IH]; simpl.
  - constructor.
  - apply insert_Sorted; trivial.
    rewrite Forall_forall in Ht |- *.
    intros r Hr. apply Ht. now apply (proj1 (sort_values_In r t)).
Qed.

Lemma firstn_Sorted (R : A * float -> A * float -> Prop) n : forall l,
  Sorted R l -> Sorted R (firstn n l).
Proof.
  induction n as [ | n IH]; intros l Hs; simpl; [constructor | ].
  destruct l as [ | h t]; [constructor | ].
  inversion Hs as [ | ? ? Hst Hhd]; subst.
  constructor; [now apply IH | ].
  destruct t as [ | h' t']; destruct n; simpl; constructor.
  now inversion Hhd.
Qed.

Lemma Sorted_adjacent (R : A * float -> A * float -> Prop) pre : forall r1 r2 post,
  Sorted R (pre ++ r1 :: r2 :: post) -> R r1 r2.
Proof.
  induction pre as [ | h t IH]; simpl; intros r1 r2 post Hs;
    inversion Hs as [ | ? ? Hst Hhd]; subst.
  - now inversion Hhd.
  - eapply IH, Hst.
Qed.

Lemma firstn_incl n r : forall l, In r (firstn n l) -> In r l.
Proof.
  induction n as [ | n IH]; intros [ | h t]; simpl; try tauto.
  intros [-> | H]; [now left | right; now apply IH].
Qed.

Lemma nsmallest_In n r l : In r (nsmallest n l) -> In r l.
Proof.
  unfold nsmallest. destruct (n <=? 0); simpl; [tauto | ].
  intros H. apply firstn_incl in H.
  apply dropna_isna_In. rewrite in_app_iff in *.
  now rewrite sort_values_In in H.
Qed.

Lemma nsmallest_length n l :
  List.length (nsmallest n l) = Nat.min (Z.to_nat n) (List.length l).
Proof.
  unfold nsmallest. destruct (n <=? 0) eqn:E.
  - apply Z.leb_le in E. now replace (Z.to_nat n) with 0%nat by lia.
  - now rewrite length_firstn, length_app, sort_values_length, dropna_isna_length.
Qed.

Lemma nsmallest_Sorted n l :
  Forall (fun r => is_nan (snd r) = false) l ->
  Sorted le_distance (nsmallest n l).
Proof.
  intros H. unfold nsmallest. destruct (n <=? 0); [constructor | ].
  rewrite (isna_nil l H), app_nil_r.
  apply firstn_Sorted, sort_values_Sorted, dropna_not_nan.
Qed.

Lemma dropna_at (d : float) l :
  filter (fun r => (snd r =? d)%float) (dropna l) =
  filter (fun r => (snd r =? d)%float) l.
Proof.
  unfold dropna. induction l as [ | h t IH]; simpl; trivial.
  destruct (snd h =? d)%float eqn:E.
  - rewrite (eqb_not_nan _ _ E). simpl. now rewrite E, IH.
  - destruct (is_nan (snd h)); simpl; now rewrite ?E, IH.
Qed.

Lemma isna_at (d : float) l :
  filter (fun r => (snd r =? d)%float) (isna l) = [].
Proof.
  unfold isna. induction l as [ | h t IH]; simpl; trivial.
  destruct (is_nan (snd h)) eqn:N; simpl; trivial.
  destruct (snd h =? d)%float eqn:E; trivial.
  apply eqb_not_nan in E. congruence.
Qed.

(** Ties: the rows selected at a given distance are the first ones of the
    frame at that distance, in the order of the frame. *)
Lemma nsmallest_ties n (d : float) l :
  exists rest,
    filter (fun r => (snd r =? d)%float) l =
    (filter (fun r => (snd r =? d)%float) (nsmallest n l) ++ rest)%list.
Proof.
  unfold nsmallest. destruct (n <=? 0).
  - now exists (filter (fun r => (snd r =? d)%float) l).
  - set (sorted := (sort_values (dropna l) ++ isna l)%list).
    exists (filter (fun r => (snd r =? d)%float) (skipn (Z.to_nat n) sorted)).
    rewrite <- filter_app, firstn_skipn. unfold sorted.
    now rewrite filter_app, sort_values_stable, dropna_at, isna_at, app_nil_r.
Qed.

(** Whatever the distances, the selection has its numbers in ascending
    order and its NaN after them. *)
Lemma Sorted_weaken (R R' : A * float -> A * float -> Prop) l :
  (forall r1 r2, R r1 r2 -> R' r1 r2) -> Sorted R l -> Sorted R' l.
Proof.
  intros HR. induction 1 as [ | h t Hs IH Hhd]; constructor; trivial.
  destruct Hhd; constructor. now apply HR.
Qed.

Lemma Sorted_app (R : A * float -> A * float -> Prop) l1 l2 :
  Sorted R l1 -> Sorted R l2 ->
  (forall r1 r2, In r1 l1 -> In r2 l2 -> R r1 r2) ->
  Sorted R (l1 ++ l2).
Proof.
  intros H1 H2 H12. induction H1 as [ | h t Hs IH Hhd]; simpl; trivial.
  constructor.
  - apply IH. intros r1 r2 Hr1. apply H12. now right.
  - destruct Hhd as [ | h' t' Hh'].
    + simpl. destruct l2 as [ | b l2']; constructor.
      apply H12; now left.
    + simpl. now constructor.
Qed.

Lemma isna_numbers_first l : Sorted numbers_first (isna l).
Proof.
  unfold isna. induction l as [ | h t IH]; simpl; [constructor | ].
  destruct (is_nan (snd h)) eqn:E; trivial.
  constructor; trivial.
  destruct (filter _ t) as [ | h' t'] eqn:F; constructor.
  right. assert (Hin : In h' (filter (fun r => is_nan (snd r)) t))
    by (rewrite F; now left).
  now apply filter_In in Hin.
Qed.

Lemma nsmallest_numbers_first n l : Sorted numbers_first (nsmallest n l).
Proof.
  unfold nsmallest. destruct (n <=? 0); [constructor | ].
  apply firstn_Sorted, Sorted_app.
  - apply (Sorted_weaken le_distance); [intros r1 r2 H; now left | ].
    apply sort_values_Sorted, dropna_not_nan.
  - apply isna_numbers_first.
  - intros r1 r2 _ Hr2. right. unfold isna in Hr2.
    now apply filter_In in Hr2.
Qed.

End SelectionFacts.

(** ** More on the selection *)

Section SelectionOrder.
Context {A : Type}.
Implicit Types (r : A * float) (l : frame A).

Lemma le_distance_trans : Relations_1.Transitive (@le_distance A).
Proof.
  intros r1 r2 r3. unfold le_distance. apply leb_trans.
Qed.

Lemma insert_Permutation r l : Permutation (insert r l) (r :: l).
Proof.
  induction l as [ | h t IH]; simpl; trivial.
  destruct (snd r <=? snd h)%float; trivial.
  rewrite IH. apply perm_swap.
Qed.

Lemma sort_values_Permutation l : Permutation (sort_values l) l.
Proof.
  induction l as [ | h t IH]; simpl; trivial.
  rewrite insert_Permutation. now constructor.
Qed.

Lemma dropna_isna_Permutation l : Permutation (dropna l ++ isna l) l.
Proof.
  unfold dropna, isna. induction l as [ | h t IH]; simpl; trivial.
  destruct (is_nan (snd h)); simpl.
  - rewrite <- Permutation_middle. now constructor.
  - now constructor.
Qed.

Lemma StronglySorted_firstn_skipn (R : A * float -> A * float -> Prop) n :
  forall l r r',
    StronglySorted R l -> In r (firstn n l) -> In r' (skipn n l) -> R r r'.
Proof.
  induction n as [ | n IH]; intros l r r' Hs Hr Hr'; simpl in *; [contradiction | ].
  destruct l as [ | h t]; simpl in *; [contradiction | ].
  inversion Hs as [ | ? ? Hst Hall]; subst.
  destruct Hr as [<- | Hr].
  - rewrite Forall_forall in Hall. apply Hall.
    rewrite <- (firstn_skipn n t), in_app_iff. now right.
  - now apply (IH t).
Qed.

(** The rows selected and the rows left: together they are the frame, and
    when no distance is NaN every row left is at least as far as every row
    selected. *)
Lemma nsmallest_split n l :
  exists rest,
    Permutation l (nsmallest n l ++ rest) /\
    (Forall (fun r => is_nan (snd r) = false) l ->
     forall r r', In r (nsmallest n l) -> In r' rest -> le_distance r r').
Proof.
  unfold nsmallest. destruct (n <=? 0).
  - exists l. split; [reflexivity | intros _ r r' []].
  - set (sorted := (sort_values (dropna l) ++ isna l)%list).
    exists (skipn (Z.to_nat n) sorted). split.
    + rewrite firstn_skipn. unfold sorted.
      now rewrite sort_values_Permutation, dropna_isna_Permutation.
    + intros Hl r r' Hr Hr'.
      apply (StronglySorted_firstn_skipn le_distance (Z.to_nat n) sorted r r');
        trivial.
      apply Sorted_StronglySorted; [apply le_distance_trans | ].
      unfold sorted. rewrite (isna_nil l Hl), app_nil_r.
      apply sort_values_Sorted, dropna_not_nan.
Qed.


Lemma nsmallest_everything n l :
  Z.of_nat (List.length l) <= n -> Permutation (nsmallest n l) l.
Proof.
  intros Hn. unfold nsmallest. destruct (n <=? 0) eqn:E.
  - apply Z.leb_le in E. destruct l; [reflexivity | simpl in Hn; lia].
  - rewrite firstn_all2.
    + now rewrite sort_values_Permutation, dropna_isna_Permutation.
    + rewrite length_app, sort_values_length, dropna_isna_length. lia.
Qed.

End SelectionOrder.

(** ** The query in terms of its candidates *)

Lemma combine_map_self {A B : Type} (f : A -> B) (l : list A) :
  combine l (map f l) = map (fun a => (a, f a)) l.
Proof.
  induction l as [ | h t IH]; simpl; congruence.
Qed.

Lemma filter_map_comm {A B : Type} (p : B -> bool) (g : A -> B) (l : list A) :
  filter p (map g l) = map g (filter (fun a => p (g a)) l).
Proof.
  induction l as [ | h t IH]; simpl; trivial.
  destruct (p (g h)); simpl; congruence.
Qed.

Lemma filter_filter {A : Type} (p q : A -> bool) (l : list A) :
  filter p (filter q l) = filter (fun a => q a && p a) l.
Proof.
  induction l as [ | h t IH]; simpl; trivial.
  destruct (q h); simpl; [destruct (p h) | ]; simpl; congruence.
Qed.

(** The returned frame is the selection among the qualifying rows. *)
Lemma find_nearby_airports_fst airports geom selected_type exclude_oaci n :
  fst (find_nearby_airports airports geom selected_type exclude_oaci n) =
  nsmallest n (with_distance geom (candidates airports selected_type exclude_oaci)).
Proof.
  unfold find_nearby_airports, with_distance, candidates. simpl.
  rewrite combine_map_self, filter_map_comm. simpl.
  destruct (String.eqb selected_type "all") eqn:E; simpl.
  - f_equal. f_equal. apply filter_ext. intros a. unfold qualifies.
    rewrite E. simpl. now rewrite andb_true_r.
  - rewrite filter_map_comm, filter_filter. simpl.
    f_equal. f_equal. apply filter_ext. intros a. unfold qualifies.
    now rewrite E.
Qed.

Lemma find_nearby_airports_row airports geom selected_type exclude_oaci n r :
  In r (fst (find_nearby_airports airports geom selected_type exclude_oaci n)) ->
  In (fst r) (rows airports) /\
  qualifies selected_type exclude_oaci (fst r) = true /\
  snd r = distance (geometry (fst r)) geom.
Proof.
  rewrite find_nearby_airports_fst. intros H. apply nsmallest_In in H.
  unfold with_distance, candidates in H. apply in_map_iff in H.
  destruct H as (a & <- & Ha). apply filter_In in Ha. simpl. tauto.
Qed.

(** Rows at the same distance come out in the order of the table. *)
Lemma find_nearby_airports_ties airports geom selected_type exclude_oaci n d :
  exists rest,
    filter (fun r => (snd r =? d)%float)
      (with_distance geom (candidates airports selected_type exclude_oaci)) =
    (filter (fun r => (snd r =? d)%float)
       (fst (find_nearby_airports airports geom selected_type exclude_oaci n))
     ++ rest)%list.
Proof.
  rewrite find_nearby_airports_fst. apply nsmallest_ties.
Qed.

(** ** The sample table *)

Example load_sample_source : load sample_source = Returns sample_airports.
Proof. reflexivity. Qed.

(** Scenarios 1, 2 and 4 of the specification. *)
Example scenario_all :
  fst (find_nearby_airports sample_airports origin "all" "A" 4) =
  [(airport_B, 1%float); (airport_C, 2%float)].
Proof. vm_compute. reflexivity. Qed.

Example scenario_large :
  fst (find_nearby_airports sample_airports origin "large_airport" "A" 4) =
  [(airport_C, 2%float)].
Proof. vm_compute. reflexivity. Qed.

Example scenario_limit_one :
  fst (find_nearby_airports sample_airports origin "all" "ZZZZ" 1) =
  [(airport_A, 0%float)].
Proof. vm_compute. reflexivity. Qed.

(** A and C are both at distance 1 of B: the first of the table wins. *)
Example scenario_tie :
  fst (find_nearby_airports sample_airports (geometry airport_B) "all" "B" 1) =
  [(airport_A, 1%float)].
Proof. vm_compute. reflexivity. Qed.

(** ** The query and the table it reads *)

(** C1, as stated, fails: a query assigns the distance column of the shared
    table, so the table after the call is not the table before it. *)
Lemma find_nearby_airports_assigns_distance_column :
  distance_column sample_airports = None /\
  distance_column (snd (find_nearby_airports sample_airports origin "all" "A" 4))
    = Some [0; 1; 2]%float /\
  snd (find_nearby_airports sample_airports origin "all" "A" 4) <> sample_airports.
Proof.
  split; [reflexivity | split; [vm_compute; reflexivity | ]].
  intros H. apply (f_equal distance_column) in H. discriminate H.
Qed.

(** C1, amended: a query changes nothing of the table but its distance
    column.  The rows, their order and every loaded column stay as they
    were, the distance column holds each row's distance to the reference
    point, and a lookup by code answers as before the query. *)
Theorem find_nearby_airports_keeps_rows
    airports geom selected_type exclude_oaci max_results :
  let airports' :=
    snd (find_nearby_airports airports geom selected_type exclude_oaci max_results) in
  rows airports' = rows airports /\
  distance_column airports' =
    Some (map (fun a => distance (geometry a) geom) (rows airports)) /\
  forall code, get_airport_info airports' code = get_airport_info airports code.
Proof.
  repeat split.
Qed.

(** C10: a query repeated with the same arguments, on the table as the
    first call left it, returns the same rows in the same order and leaves
    the table as the first call did; the rows returned do not depend on
    what an earlier query left in the distance column. *)
Theorem find_nearby_airports_repeatable
    airports geom selected_type exclude_oaci max_results :
  let first :=
    find_nearby_airports airports geom selected_type exclude_oaci max_results in
  let second :=
    find_nearby_airports (snd first) geom selected_type exclude_oaci max_results in
  fst second = fst first /\
  snd second = snd first /\
  forall column,
    fst (find_nearby_airports
           {| rows := rows airports; distance_column := column |}
           geom selected_type exclude_oaci max_results) = fst first.
Proof.
  repeat split.
Qed.

(** ** Order of the result *)

Lemma with_distance_not_nan geom (l : list Airport) :
  Forall (fun a => finite_point (geometry a) = true) l ->
  finite_point geom = true ->
  Forall (fun r => is_nan (snd r) = false) (with_distance geom l).
Proof.
  intros Hl Hg. unfold with_distance. apply Forall_map.
  eapply Forall_impl; [ | exact Hl]. simpl. intros a Ha.
  now apply distance_not_nan.
Qed.

Lemma candidates_incl airports selected_type exclude_oaci (P : Airport -> Prop) :
  Forall P (rows airports) ->
  Forall P (candidates airports selected_type exclude_oaci).
Proof.
  unfold candidates. rewrite !Forall_forall. intros H a Ha.
  apply filter_In in Ha. now apply H.
Qed.

(** C2, as stated, fails: a row with an empty latitude is loaded, its
    distance is NaN, and the query returns it after the numbers, so that
    the last pair of the result is not in order. *)
Lemma find_nearby_airports_nan_last :
  load nan_source = Returns nan_airports /\
  fst (find_nearby_airports nan_airports origin "all" "ZZZZ" 4) =
    [(airport_A, 0%float); (airport_B, 1%float); (airport_N, nan)] /\
  (1 <=? nan)%float = false.
Proof.
  repeat split; vm_compute; reflexivity.
Qed.

(** C2, amended: of two adjacent rows of the result, the first is at most
    as far from the reference point as the second whenever the second's
    distance is a number; a row whose distance is NaN is followed only by
    such rows.  When the positions of the table and the reference position
    are finite, every distance is a number and the whole result is in
    ascending order of distance. *)
Theorem find_nearby_airports_ascending
    airports geom selected_type exclude_oaci max_results :
  forall pre r1 r2 post,
    fst (find_nearby_airports airports geom selected_type exclude_oaci max_results)
      = (pre ++ r1 :: r2 :: post)%list ->
    snd r1 = distance (geometry (fst r1)) geom /\
    snd r2 = distance (geometry (fst r2)) geom /\
    ((distance (geometry (fst r1)) geom <=? distance (geometry (fst r2)) geom)%float
       = true \/
     is_nan (distance (geometry (fst r2)) geom) = true) /\
    (is_nan (distance (geometry (fst r1)) geom) = true ->
     is_nan (distance (geometry (fst r2)) geom) = true) /\
    (Forall (fun a => finite_point (geometry a) = true) (rows airports) ->
     finite_point geom = true ->
     (distance (geometry (fst r1)) geom <=? distance (geometry (fst r2)) geom)%float
       = true).
Proof.
  intros pre r1 r2 post E.
  assert (H1 : In (fst r1) (rows airports) /\
               snd r1 = distance (geometry (fst r1)) geom).
  { assert (H : In r1 (fst (find_nearby_airports airports geom selected_type
                              exclude_oaci max_results)))
      by (rewrite E, in_app_iff; simpl; eauto).
    apply find_nearby_airports_row in H. tauto. }
  assert (H2 : In (fst r2) (rows airports) /\
               snd r2 = distance (geometry (fst r2)) geom).
  { assert (H : In r2 (fst (find_nearby_airports airports geom selected_type
                              exclude_oaci max_results)))
      by (rewrite E, in_app_iff; simpl; eauto).
    apply find_nearby_airports_row in H. tauto. }
  destruct H1 as [Hin1 H1], H2 as [Hin2 H2].
  assert (Hord : numbers_first r1 r2).
  { apply (Sorted_adjacent numbers_first pre r1 r2 post). rewrite <- E.
    rewrite find_nearby_airports_fst. apply nsmallest_numbers_first. }
  unfold numbers_first, le_distance in Hord. rewrite H1, H2 in Hord.
  split; [exact H1 | split; [exact H2 | split; [exact Hord | split]]].
  - intros Hnan. destruct Hord as [Hle | Hn]; trivial.
    rewrite (leb_nan_l _ _ Hnan) in Hle. discriminate Hle.
  - intros Hrows Hgeom. destruct Hord as [Hle | Hn]; trivial.
    rewrite Forall_forall in Hrows.
    rewrite distance_not_nan in Hn; auto. discriminate Hn.
Qed.

Lemma find_nearby_airports_ascending_witness :
  snd (airport_B, 1%float) = distance (geometry airport_B) origin /\
  snd (airport_N, nan) = distance (geometry airport_N) origin /\
  ((distance (geometry airport_B) origin <=? distance (geometry airport_N) origin)%float
     = true \/
   is_nan (distance (geometry airport_N) origin) = true) /\
  (is_nan (distance (geometry airport_B) origin) = true ->
   is_nan (distance (geometry airport_N) origin) = true) /\
  (Forall (fun a => finite_point (geometry a) = true) (rows nan_airports) ->
   finite_point origin = true ->
   (distance (geometry airport_B) origin <=? distance (geometry airport_N) origin)%float
     = true).
Proof.
  apply (find_nearby_airports_ascending nan_airports origin "all" "ZZZZ" 4
           [(airport_A, 0%float)] (airport_B, 1%float) (airport_N, nan) []).
  vm_compute. reflexivity.
Defined.

(** ** Filtering by type and by code *)

Lemma cell_eqb_eq (c : cell) (s : string) : cell_eqb c s = true <-> c = Some s.
Proof.
  destruct c as [c' | ]; simpl.
  - rewrite String.eqb_eq. split; congruence.
  - split; discriminate.
Qed.

Lemma cell_neb_neq (c : cell) (s : string) : cell_neb c s = true <-> c <> Some s.
Proof.
  unfold cell_neb. rewrite negb_true_iff, <- not_true_iff_false, cell_eqb_eq.
  tauto.
Qed.

(** C3: when the selected type is not "all", every row returned has that
    type; when it is "all", the rows returned are selected among all the
    rows of the table but the excluded one, whatever their type. *)
Theorem find_nearby_airports_type_filter
    airports geom selected_type exclude_oaci max_results :
  let result :=
    fst (find_nearby_airports airports geom selected_type exclude_oaci max_results) in
  (selected_type <> "all" ->
   Forall (fun r => type_ (fst r) = Some selected_type) result) /\
  (selected_type = "all" ->
   result =
   nsmallest max_results
     (with_distance geom
        (filter (fun a => cell_neb (code_oaci a) exclude_oaci) (rows airports)))).
Proof.
  split.
  - intros Hsel. apply Forall_forall. intros r Hr.
    apply find_nearby_airports_row in Hr. destruct Hr as (_ & Hq & _).
    unfold qualifies in Hq. apply andb_true_iff in Hq. destruct Hq as [_ Hq].
    apply String.eqb_neq in Hsel. rewrite Hsel in Hq. simpl in Hq.
    now apply cell_eqb_eq.
  - intros ->. rewrite find_nearby_airports_fst. unfold candidates.
    do 2 f_equal. apply filter_ext. intros a. unfold qualifies. simpl.
    now rewrite andb_true_r.
Qed.

Lemma find_nearby_airports_type_filter_witness :
  Forall (fun r => type_ (fst r) = Some "large_airport")
    (fst (find_nearby_airports sample_airports origin "large_airport" "A" 4)) /\
  fst (find_nearby_airports sample_airports origin "all" "A" 4) =
  nsmallest 4
    (with_distance origin
       (filter (fun a => cell_neb (code_oaci a) "A") (rows sample_airports))).
Proof.
  split.
  - apply (proj1 (find_nearby_airports_type_filter
                    sample_airports origin "large_airport" "A" 4)).
    discriminate.
  - apply (proj2 (find_nearby_airports_type_filter
                    sample_airports origin "all" "A" 4)).
    reflexivity.
Defined.

Lemma excluded_unique exclude_oaci (l : list Airport) :
  NoDup (map code_oaci l) ->
  (List.length (filter (fun a => cell_eqb (code_oaci a) exclude_oaci) l) <= 1)%nat.
Proof.
  induction l as [ | h t IH]; simpl; intros Hnd; [lia | ].
  inversion Hnd as [ | ? ? Hh Ht]; subst.
  destruct (cell_eqb (code_oaci h) exclude_oaci) eqn:E; [ | now apply IH].
  apply cell_eqb_eq in E.
  assert (Hnone : filter (fun a => cell_eqb (code_oaci a) exclude_oaci) t = []).
  { destruct (filter _ t) as [ | a t'] eqn:F; trivial.
    assert (Ha : In a (filter (fun a => cell_eqb (code_oaci a) exclude_oaci) t))
      by (rewrite F; now left).
    apply filter_In in Ha. destruct Ha as [Ha Hc]. apply cell_eqb_eq in Hc.
    exfalso. apply Hh. rewrite E, <- Hc. now apply in_map. }
  simpl. rewrite Hnone. simpl. lia.
Qed.

Lemma filter_split_length {A : Type} (p : A -> bool) (l : list A) :
  List.length l =
  (List.length (filter (fun a => negb (p a)) l) + List.length (filter p l))%nat.
Proof.
  induction l as [ | h t IH]; simpl; trivial.
  destruct (p h); simpl; lia.
Qed.

Lemma map_fst_with_distance geom (l : list Airport) :
  map fst (with_distance geom l) = l.
Proof.
  unfold with_distance. rewrite map_map. simpl. apply map_id.
Qed.

Lemma candidates_all airports exclude_oaci :
  candidates airports "all" exclude_oaci =
  filter (fun a => cell_neb (code_oaci a) exclude_oaci) (rows airports).
Proof.
  unfold candidates. apply filter_ext. intros a. unfold qualifies. simpl.
  now rewrite andb_true_r.
Qed.

(** C4, as stated, fails: two rows of a loaded table share the code A, and
    the exclusion of A removes both of them from the result. *)
Lemma find_nearby_airports_excludes_both :
  load duplicate_source = Returns duplicate_airports /\
  fst (find_nearby_airports duplicate_airports origin "all" "A" 4)
    = [(airport_B, 1%float); (airport_C, 2%float)] /\
  fst (find_nearby_airports duplicate_airports origin "all" "ZZZZ" 4)
    = [(airport_A, 0%float); (airport_B, 1%float); (airport_C, 2%float);
       (airport_A2, 7%float)].
Proof.
  repeat split; vm_compute; reflexivity.
Qed.

(** C4, amended: no row returned has the excluded code, and the exclusion
    removes the rows whose code is exactly the excluded one and no other:
    without a type filter and with a limit that cuts nothing, the call
    returns every row of the table but these, each once.  The rows removed
    are all those with the code: at most one when the codes of the table
    are unique, several when rows share the code. *)
Theorem find_nearby_airports_excludes_code
    airports geom selected_type exclude_oaci max_results :
  Forall (fun r => code_oaci (fst r) <> Some exclude_oaci)
    (fst (find_nearby_airports airports geom selected_type exclude_oaci max_results)) /\
  forall limit,
    Z.of_nat (List.length (rows airports)) <= limit ->
    let everything :=
      fst (find_nearby_airports airports geom "all" exclude_oaci limit) in
    Permutation (map fst everything)
      (filter (fun a => cell_neb (code_oaci a) exclude_oaci) (rows airports)) /\
    List.length (rows airports) =
      (List.length everything +
       List.length (filter (fun a => cell_eqb (code_oaci a) exclude_oaci)
                      (rows airports)))%nat /\
    (NoDup (map code_oaci (rows airports)) ->
     (List.length (rows airports) <= S (List.length everything))%nat).
Proof.
  split.
  - apply Forall_forall. intros r Hr.
    apply find_nearby_airports_row in Hr. destruct Hr as (_ & Hq & _).
    unfold qualifies in Hq. apply andb_true_iff in Hq. destruct Hq as [Hq _].
    now apply cell_neb_neq.
  - intros limit Hlimit everything.
    assert (Hperm : Permutation everything
                      (with_distance geom (candidates airports "all" exclude_oaci))).
    { unfold everything. rewrite find_nearby_airports_fst.
      apply nsmallest_everything. unfold with_distance, candidates.
      rewrite length_map.
      pose proof (filter_length_le (qualifies "all" exclude_oaci) (rows airports)).
      lia. }
    assert (Hlen : List.length everything =
                   List.length (filter (fun a => cell_neb (code_oaci a) exclude_oaci)
                                  (rows airports))).
    { rewrite (Permutation_length Hperm). unfold with_distance.
      now rewrite length_map, candidates_all. }
    pose proof (filter_split_length (fun a => cell_eqb (code_oaci a) exclude_oaci)
                  (rows airports)) as Hsplit.
    fold (cell_neb) in Hsplit.
    split; [ | split].
    + rewrite <- candidates_all, <- (map_fst_with_distance geom (candidates _ _ _)).
      now apply Permutation_map.
    + rewrite Hlen. exact Hsplit.
    + intros Hnd. pose proof (excluded_unique exclude_oaci _ Hnd) as Hone.
      rewrite Hlen. unfold cell_neb. lia.
Qed.

Lemma find_nearby_airports_excludes_code_witness :
  Permutation
    (map fst (fst (find_nearby_airports sample_airports origin "all" "A" 3)))
    (filter (fun a => cell_neb (code_oaci a) "A") (rows sample_airports)) /\
  List.length (rows sample_airports) =
    (List.length (fst (find_nearby_airports sample_airports origin "all" "A" 3)) +
     List.length (filter (fun a => cell_eqb (code_oaci a) "A")
                    (rows sample_airports)))%nat /\
  (NoDup (map code_oaci (rows sample_airports)) ->
   (List.length (rows sample_airports) <=
    S (List.length (fst (find_nearby_airports sample_airports origin "all" "A" 3))))%nat).
Proof.
  apply (proj2 (find_nearby_airports_excludes_code
                  sample_airports origin "all" "A" 4) 3).
  vm_compute. discriminate.
Defined.

(** ** Size of the result *)

(** C5: with a positive limit, at most [max_results] rows are returned,
    exactly [max_results] when at least that many rows pass the type filter
    and the exclusion, and when none does the call returns the empty
    frame. *)
Theorem find_nearby_airports_at_most_limit
    airports geom selected_type exclude_oaci max_results :
  0 < max_results ->
  let result :=
    fst (find_nearby_airports airports geom selected_type exclude_oaci max_results) in
  let qualifying := candidates airports selected_type exclude_oaci in
  Z.of_nat (List.length result) <= max_results /\
  (max_results <= Z.of_nat (List.length qualifying) ->
   Z.of_nat (List.length result) = max_results) /\
  (qualifying = [] ->
   exists airports',
     find_nearby_airports_outcome
       airports geom selected_type exclude_oaci max_results
     = Returns ([], airports')).
Proof.
  intros Hpos result qualifying.
  assert (Hlen : List.length result =
                 Nat.min (Z.to_nat max_results) (List.length qualifying)).
  { unfold result, qualifying. rewrite find_nearby_airports_fst, nsmallest_length.
    unfold with_distance. now rewrite length_map. }
  repeat split.
  - lia.
  - lia.
  - intros Hnil. rewrite Hnil in Hlen. simpl in Hlen. rewrite Nat.min_0_r in Hlen.
    assert (Hres : result = []) by now destruct result.
    unfold find_nearby_airports_outcome.
    exists (snd (find_nearby_airports
                   airports geom selected_type exclude_oaci max_results)).
    f_equal. rewrite <- Hres. apply surjective_pairing.
Qed.

Lemma find_nearby_airports_at_most_limit_witness :
  Z.of_nat (List.length
              (fst (find_nearby_airports sample_airports origin "all" "A" 1))) = 1.
Proof.
  apply (find_nearby_airports_at_most_limit sample_airports origin "all" "A" 1
           eq_refl).
  vm_compute. discriminate.
Defined.

(** ** The load *)

Lemma load_row_numeric (r : CsvRow) :
  numeric_row r = true -> exists a, load_row r = Returns a /\ loaded_from r a.
Proof.
  unfold numeric_row, load_row, loaded_from, make_point. simpl.
  destruct (coordinate (latitude_deg r)) as [la | ] eqn:Ela; try discriminate.
  destruct (coordinate (longitude_deg r)) as [lo | ] eqn:Elo; try discriminate.
  intros _. simpl. eexists. split; [reflexivity | ]. simpl.
  repeat split; assumption.
Qed.

Lemma load_row_text (r : CsvRow) :
  numeric_row r = false -> load_row r = Raises BadCoordinate.
Proof.
  unfold numeric_row, load_row, make_point. simpl.
  destruct (coordinate (latitude_deg r)), (coordinate (longitude_deg r));
    simpl; congruence.
Qed.

Lemma load_rows_numeric (df : list CsvRow) :
  forallb numeric_row df = true ->
  exists l, load_rows df = Returns l /\ Forall2 loaded_from df l.
Proof.
  induction df as [ | r df' IH]; simpl.
  - intros _. exists []. split; [reflexivity | constructor].
  - rewrite andb_true_iff. intros [Hr Hdf].
    destruct (load_row_numeric r Hr) as (a & -> & Ha).
    destruct (IH Hdf) as (l & -> & Hl). simpl.
    exists (a :: l). split; [reflexivity | now constructor].
Qed.

Lemma load_rows_text (df : list CsvRow) :
  forallb numeric_row df = false -> load_rows df = Raises BadCoordinate.
Proof.
  induction df as [ | r df' IH]; simpl; [discriminate | ].
  destruct (numeric_row r) eqn:Hr; simpl.
  - intros Hdf. destruct (load_row_numeric r Hr) as (a & -> & _). simpl.
    now rewrite IH.
  - intros _. now rewrite load_row_text.
Qed.

Lemma load_Returns (df : list CsvRow) (airports : GeoDataFrame) :
  load df = Returns airports ->
  Forall2 loaded_from df (rows airports) /\ distance_column airports = None.
Proof.
  unfold load. destruct (forallb numeric_row df) eqn:E.
  - destruct (load_rows_numeric df E) as (l & -> & Hl). simpl.
    intros [= <-]. now split.
  - rewrite (load_rows_text df E). discriminate.
Qed.

(** A coordinate column read as text is converted by [float]: an
    underscore between digits and blanks around the number are accepted. *)
Example load_text_position :
  load [row_text_position] =
  Returns {| rows := [ {| code_oaci := Some "T"; name := Some "T";
                          type_ := Some "large_airport";
                          lat := Text "1_000"; lon := Text " 2.5 ";
                          iso_country := Some "FR";
                          geometry := {| x := 2.5; y := 1000 |} |} ];
             distance_column := None |}.
Proof. vm_compute. reflexivity. Qed.

(** C7, as stated, fails: a row whose code is empty is loaded like any
    other, and a row whose latitude is a text that is no number aborts the
    load. *)
Lemma load_skips_no_row :
  spec_valid_row row_without_code = false /\
  (exists airports,
     load (row_without_code :: sample_source) = Returns airports /\
     map code_oaci (rows airports) = [None; Some "A"; Some "B"; Some "C"]) /\
  spec_valid_row row_bad_latitude = false /\
  load (row_bad_latitude :: sample_source) = Raises BadCoordinate.
Proof.
  split; [vm_compute; reflexivity | split; [ | split; vm_compute; reflexivity]].
  eexists. split; vm_compute; reflexivity.
Qed.

(** C7, amended: the load skips no row.  When every coordinate field of the
    frame read from the source is a number, or a text that [float]
    converts to one, the load returns one record per row, in the order of
    the source, rows with an empty code included; when some coordinate
    field is a text that [float] refuses, it raises and no table is built.
    Nothing counts rows. *)
Theorem load_all_rows_or_raises (df : list CsvRow) :
  (forallb numeric_row df = true ->
   exists airports,
     load df = Returns airports /\
     Forall2 loaded_from df (rows airports) /\
     distance_column airports = None) /\
  (forallb numeric_row df = false -> load df = Raises BadCoordinate).
Proof.
  split; intros H; unfold load.
  - destruct (load_rows_numeric df H) as (l & -> & Hl). simpl.
    eexists. repeat split. exact Hl.
  - now rewrite (load_rows_text df H).
Qed.

Lemma load_all_rows_or_raises_witness :
  (exists airports,
     load (row_without_code :: row_text_position :: sample_source)
       = Returns airports /\
     Forall2 loaded_from (row_without_code :: row_text_position :: sample_source)
       (rows airports) /\
     distance_column airports = None) /\
  load (row_bad_latitude :: sample_source) = Raises BadCoordinate.
Proof.
  split.
  - apply (proj1 (load_all_rows_or_raises
                    (row_without_code :: row_text_position :: sample_source))).
    vm_compute. reflexivity.
  - apply (proj2 (load_all_rows_or_raises (row_bad_latitude :: sample_source))).
    vm_compute. reflexivity.
Defined.

(** ** The distance *)

Lemma loaded_position (df : list CsvRow) (l : list Airport) :
  Forall2 loaded_from df l ->
  Forall (fun a => coordinate (lat a) = Some (y (geometry a)) /\
                   coordinate (lon a) = Some (x (geometry a))) l.
Proof.
  induction 1 as [ | r a df' l' Hra _ IH]; constructor; trivial.
  unfold loaded_from in Hra. tauto.
Qed.

(** C6: on a loaded table, the distance of every row returned is the planar
    distance between the row's latitude and longitude and those of the
    reference point, the degree values being taken as plane coordinates:
    sqrt ((lat1 - lat2)^2 + (lon1 - lon2)^2).  The latitude and longitude
    are the numbers of the row's lat and lon columns (a number stands for
    itself, a text for the number [float] reads in it). *)
Theorem find_nearby_airports_planar_distance
    df airports geom selected_type exclude_oaci max_results :
  load df = Returns airports ->
  forall a d,
    In (a, d)
      (fst (find_nearby_airports airports geom selected_type exclude_oaci max_results)) ->
    exists la lo,
      coordinate (lat a) = Some la /\ coordinate (lon a) = Some lo /\
      d = planar_distance la lo (y geom) (x geom).
Proof.
  intros Hload a d Hin.
  apply load_Returns in Hload. destruct Hload as [Hrows _].
  apply loaded_position in Hrows. rewrite Forall_forall in Hrows.
  apply find_nearby_airports_row in Hin. simpl in Hin.
  destruct Hin as (Ha & _ & ->).
  destruct (Hrows a Ha) as [Hlat Hlon].
  exists (y (geometry a)), (x (geometry a)).
  repeat split; trivial. apply distance_planar.
Qed.

Lemma find_nearby_airports_planar_distance_witness :
  exists la lo,
    coordinate (lat airport_C) = Some la /\ coordinate (lon airport_C) = Some lo /\
    2%float = planar_distance la lo (y origin) (x origin).
Proof.
  apply (find_nearby_airports_planar_distance
           sample_source sample_airports origin "all" "A" 4 eq_refl
           airport_C 2%float).
  vm_compute. right. left. reflexivity.
Defined.

(** ** Lookup after load *)

Lemma loaded_codes (df : list CsvRow) (l : list Airport) :
  Forall2 loaded_from df l -> map code_oaci l = map ident df.
Proof.
  induction 1 as [ | r a df' l' Hra _ IH]; simpl; trivial.
  destruct Hra as (-> & _). now rewrite IH.
Qed.
Lemma filter_first_split {A : Type} (p : A -> bool) (l : list A) :
  match filter p l with
  | [] => Forall (fun a => p a = false) l
  | h :: _ =>
      exists pre post,
        l = (pre ++ h :: post)%list /\
        Forall (fun a => p a = false) pre /\ p h = true
  end.
Proof.
  induction l as [ | a t IH]; simpl; [constructor | ].
  destruct (p a) eqn:E.
  - exists [], t. repeat split; trivial.
  - destruct (filter p t) as [ | h t'].
    + now constructor.
    + destruct IH as (pre & post & -> & Hpre & Hh).
      exists (a :: pre), post. repeat split; trivial. now constructor.
Qed.

Lemma cell_eqb_false (c : cell) (s : string) : cell_eqb c s = false <-> c <> Some s.
Proof.
  rewrite <- cell_neb_neq. unfold cell_neb. now rewrite negb_true_iff.
Qed.

(** The lookup, by the place of the first row that has the code. *)
Lemma get_airport_info_split (airports : GeoDataFrame) (code : string) :
  match get_airport_info airports code with
  | None => Forall (fun a => code_oaci a <> Some code) (rows airports)
  | Some airport_info =>
      exists pre a post,
        rows airports = (pre ++ a :: post)%list /\
        Forall (fun a' => code_oaci a' <> Some code) pre /\
        code_oaci a = Some code /\
        airport_info =
        {| info_name := name a; info_type := type_ a;
           info_geometry := geometry a |}
  end.
Proof.
  unfold get_airport_info.
  pose proof (filter_first_split (fun a => cell_eqb (code_oaci a) code)
                (rows airports)) as H.
  destruct (filter _ (rows airports)) as [ | h t].
  - eapply Forall_impl; [ | exact H]. intros a. apply cell_eqb_false.
  - destruct H as (pre & post & Hrows & Hpre & Hh).
    exists pre, h, post. repeat split; trivial.
    + eapply Forall_impl; [ | exact Hpre]. intros a. apply cell_eqb_false.
    + now apply cell_eqb_eq.
Qed.

(** C8, as stated, fails: the load keeps a code as the frame read from the
    source has it, so a code in lower case stays in lower case, and a
    lookup of its upper-case form does not find it. *)
Lemma load_does_not_normalize :
  spec_normalize_code "lfmk" = "LFMK" /\
  exists airports,
    load lowercase_source = Returns airports /\
    map code_oaci (rows airports) = [Some "lfmk"] /\
    get_airport_info airports "LFMK" = None.
Proof.
  split; [vm_compute; reflexivity | ]. eexists. repeat split.
Qed.

(** C8, amended: the load keeps the code column of the frame read from the
    source as it is, and a lookup compares codes exactly.  For every string
    that this frame holds as a code, the lookup of that very string on the
    loaded table returns the name, type and position of the first record
    whose code is exactly that string; a string that the frame holds as
    the code of no row is not found. *)
Theorem get_airport_info_after_load (df : list CsvRow) (airports : GeoDataFrame) :
  load df = Returns airports ->
  map code_oaci (rows airports) = map ident df /\
  (forall code,
     In (Some code) (map ident df) ->
     exists pre a post,
       rows airports = (pre ++ a :: post)%list /\
       Forall (fun a' => code_oaci a' <> Some code) pre /\
       code_oaci a = Some code /\
       get_airport_info airports code =
       Some {| info_name := name a; info_type := type_ a;
               info_geometry := geometry a |}) /\
  (forall code,
     ~ In (Some code) (map ident df) -> get_airport_info airports code = None).
Proof.
  intros Hload. apply load_Returns in Hload. destruct Hload as [Hrows _].
  pose proof (loaded_codes _ _ Hrows) as Hcodes.
  split; [exact Hcodes | split]; intros code Hcode; rewrite <- Hcodes in Hcode;
    pose proof (get_airport_info_split airports code) as H;
    destruct (get_airport_info airports code) as [info | ].
  - destruct H as (pre & a & post & H1 & H2 & H3 & ->).
    exists pre, a, post. repeat split; trivial.
  - exfalso. apply in_map_iff in Hcode. destruct Hcode as (a & Ha & Hin).
    rewrite Forall_forall in H. exact (H a Hin Ha).
  - exfalso. destruct H as (pre & a & post & H1 & _ & H3 & _).
    apply Hcode. rewrite <- H3. apply in_map. rewrite H1.
    apply in_or_app. right. now left.
  - reflexivity.
Qed.

Lemma get_airport_info_after_load_witness :
  exists pre a post,
    rows sample_airports = (pre ++ a :: post)%list /\
    Forall (fun a' => code_oaci a' <> Some "B") pre /\
    code_oaci a = Some "B" /\
    get_airport_info sample_airports "B" =
    Some {| info_name := name a; info_type := type_ a;
            info_geometry := geometry a |}.
Proof.
  apply (proj1 (proj2 (get_airport_info_after_load
                         sample_source sample_airports eq_refl)) "B").
  simpl. right. left. reflexivity.
Defined.

(** ** Queries the specification would reject *)

(** C9, as stated, fails: a limit of zero, a latitude of 120 degrees and an
    infinite longitude are all answered with a frame, none with an error. *)
Lemma find_nearby_airports_accepts_invalid_query :
  (spec_valid_query origin 0 = false /\
   exists airports',
     find_nearby_airports_outcome sample_airports origin "all" "A" 0
     = Returns ([], airports')) /\
  (spec_valid_query out_of_range 4 = false /\
   exists airports',
     find_nearby_airports_outcome sample_airports out_of_range "medium_airport" "A" 4
     = Returns ([(airport_B, 120%float)], airports')) /\
  (spec_valid_query not_finite 4 = false /\
   exists airports',
     find_nearby_airports_outcome sample_airports not_finite "large_airport" "A" 4
     = Returns ([(airport_C, infinity)], airports')).
Proof.
  repeat split; eexists; vm_compute; reflexivity.
Qed.

(** C9, amended: the query validates nothing and every call returns a
    frame.  A limit that is not positive gives the empty frame; any
    reference position, in range or not, is used as it is to compute the
    distance of each row returned. *)
Theorem find_nearby_airports_always_returns
    airports geom selected_type exclude_oaci max_results :
  exists result airports',
    find_nearby_airports_outcome airports geom selected_type exclude_oaci max_results
    = Returns (result, airports') /\
    (max_results <= 0 -> result = []) /\
    Forall (fun r => snd r = distance (geometry (fst r)) geom) result.
Proof.
  exists (fst (find_nearby_airports
                 airports geom selected_type exclude_oaci max_results)),
         (snd (find_nearby_airports
                 airports geom selected_type exclude_oaci max_results)).
  split; [ | split].
  - unfold find_nearby_airports_outcome. now rewrite <- surjective_pairing.
  - intros Hn. rewrite find_nearby_airports_fst. unfold nsmallest.
    apply Z.leb_le in Hn. now rewrite Hn.
  - apply Forall_forall. intros r Hr.
    now apply find_nearby_airports_row in Hr.
Qed.

(** ** ASCII case and [str.upper] *)

Lemma upper_ascii_low (b : ascii) :
  (N_of_ascii b < 128)%N ->
  (N_of_ascii (upper_ascii b) < 128)%N /\
  upper_cp (N_of_ascii (upper_ascii b)) = upper_cp (N_of_ascii b).
Proof.
  destruct b as [[] [] [] [] [] [] [] []]; intros H;
    try (vm_compute in H; discriminate H); vm_compute; split; reflexivity.
Qed.

Lemma upper_ascii_high (b : ascii) :
  (128 <= N_of_ascii b)%N -> upper_ascii b = b.
Proof.
  destruct b as [[] [] [] [] [] [] [] []]; intros H;
    try reflexivity; vm_compute in H; now contradiction H.
Qed.

Lemma in_range_upper_ascii (lo hi : N) (b : ascii) :
  (128 <= lo)%N ->
  in_range lo hi (N_of_ascii (upper_ascii b)) = in_range lo hi (N_of_ascii b).
Proof.
  intros Hlo. destruct (N.ltb_spec (N_of_ascii b) 128) as [H | H].
  - destruct (upper_ascii_low b H) as [H' _]. unfold in_range.
    replace (lo <=? N_of_ascii (upper_ascii b))%N with false
      by (symmetry; apply N.leb_gt; lia).
    replace (lo <=? N_of_ascii b)%N with false
      by (symmetry; apply N.leb_gt; lia).
    reflexivity.
  - now rewrite upper_ascii_high.
Qed.

Lemma in_range_high (lo hi n : N) :
  (128 <= lo)%N -> in_range lo hi n = true -> (128 <= n)%N.
Proof.
  unfold in_range. rewrite andb_true_iff, N.leb_le. lia.
Qed.

Lemma decode_String (b0 : ascii) (s1 : string) :
  decode (String b0 s1) =
  let n0 := N_of_ascii b0 in
  if (n0 <? 128)%N then n0 :: decode s1
  else
    match s1 with
    | EmptyString => [raw_byte n0]
    | String b1 s2 =>
        let n1 := N_of_ascii b1 in
        if seq2 n0 n1 then cp2 n0 n1 :: decode s2
        else
          match s2 with
          | EmptyString => raw_byte n0 :: decode s1
          | String b2 s3 =>
              let n2 := N_of_ascii b2 in
              if seq3 n0 n1 n2 then cp3 n0 n1 n2 :: decode s3
              else
                match s3 with
                | EmptyString => raw_byte n0 :: decode s1
                | String b3 s4 =>
                    let n3 := N_of_ascii b3 in
                    if seq4 n0 n1 n2 n3 then cp4 n0 n1 n2 n3 :: decode s4
                    else raw_byte n0 :: decode s1
                end
          end
    end.
Proof. reflexivity. Qed.

Lemma seq2_upper n0 b1 :
  seq2 n0 (N_of_ascii (upper_ascii b1)) = seq2 n0 (N_of_ascii b1).
Proof. unfold seq2. now rewrite in_range_upper_ascii by lia. Qed.

Lemma seq3_upper n0 b1 b2 :
  seq3 n0 (N_of_ascii (upper_ascii b1)) (N_of_ascii (upper_ascii b2)) =
  seq3 n0 (N_of_ascii b1) (N_of_ascii b2).
Proof. unfold seq3. now rewrite !in_range_upper_ascii by lia. Qed.

Lemma seq4_upper n0 b1 b2 b3 :
  seq4 n0 (N_of_ascii (upper_ascii b1)) (N_of_ascii (upper_ascii b2))
    (N_of_ascii (upper_ascii b3)) =
  seq4 n0 (N_of_ascii b1) (N_of_ascii b2) (N_of_ascii b3).
Proof. unfold seq4. now rewrite !in_range_upper_ascii by lia. Qed.

Lemma seq2_high n0 n1 :
  seq2 n0 n1 = true -> (128 <= n1 /\ 128 <= cp2 n0 n1)%N.
Proof.
  unfold seq2, in_range, cp2. rewrite !andb_true_iff, !N.leb_le. lia.
Qed.

Lemma seq3_high n0 n1 n2 :
  seq3 n0 n1 n2 = true -> (128 <= n1 /\ 128 <= n2 /\ 128 <= cp3 n0 n1 n2)%N.
Proof.
  unfold seq3, in_range, cp3.
  rewrite !andb_true_iff, !orb_true_iff, !andb_true_iff, !N.leb_le, !N.eqb_eq.
  lia.
Qed.

Lemma seq4_high n0 n1 n2 n3 :
  seq4 n0 n1 n2 n3 = true ->
  (128 <= n1 /\ 128 <= n2 /\ 128 <= n3 /\ 128 <= cp4 n0 n1 n2 n3)%N.
Proof.
  unfold seq4, in_range, cp4.
  rewrite !andb_true_iff, !orb_true_iff, !andb_true_iff, !N.leb_le, !N.eqb_eq.
  lia.
Qed.

Lemma ascii_upper_cp_high (c : N) : (128 <= c)%N -> ascii_upper_cp c = c.
Proof.
  intros H. unfold ascii_upper_cp.
  now replace (c <? 128)%N with false by (symmetry; apply N.ltb_ge; lia).
Qed.

Lemma ascii_upper_cp_byte (b : ascii) :
  (N_of_ascii b < 128)%N ->
  ascii_upper_cp (N_of_ascii b) = N_of_ascii (upper_ascii b).
Proof.
  intros H. unfold ascii_upper_cp.
  replace (N_of_ascii b <? 128)%N with true by (symmetry; now apply N.ltb_lt).
  now rewrite ascii_N_embedding.
Qed.

Lemma decode_upper_bounded (n : nat) : forall s,
  (String.length s <= n)%nat -> decode (upper s) = map ascii_upper_cp (decode s).
Proof.
  induction n as [ | n IH]; intros s Hlen.
  - destruct s; [reflexivity | simpl in Hlen; lia].
  - destruct s as [ | b0 s1]; [reflexivity | ].
    assert (IH1 : decode (upper s1) = map ascii_upper_cp (decode s1))
      by (apply IH; simpl in Hlen; lia).
    change (upper (String b0 s1)) with (String (upper_ascii b0) (upper s1)).
    rewrite (decode_String b0 s1), (decode_String (upper_ascii b0)).
    cbv zeta. destruct (N.ltb_spec (N_of_ascii b0) 128) as [H0 | H0].
    + destruct (upper_ascii_low b0 H0) as [H0' _].
      replace (N_of_ascii (upper_ascii b0) <? 128)%N with true
        by (symmetry; now apply N.ltb_lt).
      cbn [map]. now rewrite IH1, ascii_upper_cp_byte.
    + rewrite (upper_ascii_high b0 H0).
      replace (N_of_ascii b0 <? 128)%N with false
        by (symmetry; now apply N.ltb_ge).
      assert (Hraw : ascii_upper_cp (raw_byte (N_of_ascii b0)) =
                     raw_byte (N_of_ascii b0))
        by (apply ascii_upper_cp_high; unfold raw_byte; lia).
      destruct s1 as [ | b1 s2]; [cbn [upper map]; now rewrite Hraw | ].
      change (upper (String b1 s2)) with (String (upper_ascii b1) (upper s2))
        in IH1 |- *.
      cbv beta iota zeta. rewrite seq2_upper.
      destruct (seq2 (N_of_ascii b0) (N_of_ascii b1)) eqn:E2.
      * destruct (seq2_high _ _ E2) as [H1 Hc].
        rewrite (upper_ascii_high b1 H1). simpl map.
        rewrite (ascii_upper_cp_high _ Hc). f_equal.
        apply IH. simpl in Hlen. lia.
      * destruct s2 as [ | b2 s3].
        -- cbn [map]. now rewrite Hraw, IH1.
        -- change (upper (String b2 s3)) with (String (upper_ascii b2) (upper s3))
             in IH1 |- *.
           cbv beta iota zeta. rewrite seq3_upper.
           destruct (seq3 (N_of_ascii b0) (N_of_ascii b1) (N_of_ascii b2)) eqn:E3.
           ++ destruct (seq3_high _ _ _ E3) as (H1 & H2 & Hc).
              rewrite (upper_ascii_high b1 H1), (upper_ascii_high b2 H2).
              cbn [map]. rewrite (ascii_upper_cp_high _ Hc). f_equal.
              apply IH. simpl in Hlen. lia.
           ++ destruct s3 as [ | b3 s4].
              ** cbn [map]. now rewrite Hraw, IH1.
              ** change (upper (String b3 s4))
                   with (String (upper_ascii b3) (upper s4)) in IH1 |- *.
                 cbv beta iota zeta. rewrite seq4_upper.
                 destruct (seq4 (N_of_ascii b0) (N_of_ascii b1) (N_of_ascii b2)
                             (N_of_ascii b3)) eqn:E4.
                 --- destruct (seq4_high _ _ _ _ E4) as (H1 & H2 & H3 & Hc).
                     rewrite (upper_ascii_high b1 H1), (upper_ascii_high b2 H2),
                       (upper_ascii_high b3 H3).
                     cbn [map]. rewrite (ascii_upper_cp_high _ Hc). f_equal.
                     apply IH. simpl in Hlen. lia.
                 --- cbn [map]. now rewrite Hraw, IH1.
Qed.

Lemma upper_cp_ascii_upper (c : N) : upper_cp (ascii_upper_cp c) = upper_cp c.
Proof.
  unfold ascii_upper_cp. destruct (N.ltb_spec c 128) as [H | H]; trivial.
  assert (Hb : N_of_ascii (ascii_of_N c) = c) by (apply N_ascii_embedding; lia).
  destruct (upper_ascii_low (ascii_of_N c)) as [_ Hu]; [now rewrite Hb | ].
  now rewrite Hu, Hb.
Qed.

(** Upper-casing the ASCII letters first does not change [s.upper()]. *)
Lemma str_upper_upper (s : string) : str_upper (upper s) = str_upper s.
Proof.
  unfold str_upper. rewrite (decode_upper_bounded (String.length s) s (le_n _)).
  f_equal. induction (decode s) as [ | c l IH]; simpl; trivial.
  now rewrite upper_cp_ascii_upper, IH.
Qed.

(** * Further properties *)

(** ** The nearest rows *)

(** X1: on finite positions, the rows returned are nearest ones: the
    qualifying rows are the rows returned together with rows left out, and
    no row left out is nearer to the reference point than a row returned. *)
Theorem find_nearby_airports_nearest
    airports geom selected_type exclude_oaci max_results :
  Forall (fun a => finite_point (geometry a) = true) (rows airports) ->
  finite_point geom = true ->
  exists rest,
    Permutation
      (with_distance geom (candidates airports selected_type exclude_oaci))
      (fst (find_nearby_airports airports geom selected_type exclude_oaci max_results)
       ++ rest) /\
    forall r r',
      In r (fst (find_nearby_airports
                   airports geom selected_type exclude_oaci max_results)) ->
      In r' rest ->
      (snd r <=? snd r')%float = true.
Proof.
  intros Hrows Hgeom. rewrite find_nearby_airports_fst.
  destruct (nsmallest_split max_results
              (with_distance geom (candidates airports selected_type exclude_oaci)))
    as (rest & Hperm & Hle).
  exists rest. split; [exact Hperm | ].
  apply Hle, with_distance_not_nan; trivial. now apply candidates_incl.
Qed.

Lemma find_nearby_airports_nearest_witness :
  exists rest,
    Permutation
      (with_distance origin (candidates sample_airports "all" "ZZZZ"))
      (fst (find_nearby_airports sample_airports origin "all" "ZZZZ" 2) ++ rest) /\
    forall r r',
      In r (fst (find_nearby_airports sample_airports origin "all" "ZZZZ" 2)) ->
      In r' rest ->
      (snd r <=? snd r')%float = true.
Proof.
  apply (find_nearby_airports_nearest sample_airports origin "all" "ZZZZ" 2).
  - repeat constructor.
  - reflexivity.
Defined.



(** X3: when the limit is at least the number of qualifying rows, every
    qualifying row is returned, once, with its distance. *)
Theorem find_nearby_airports_everything
    airports geom selected_type exclude_oaci max_results :
  Z.of_nat (List.length (candidates airports selected_type exclude_oaci))
    <= max_results ->
  Permutation
    (fst (find_nearby_airports airports geom selected_type exclude_oaci max_results))
    (with_distance geom (candidates airports selected_type exclude_oaci)).
Proof.
  intros Hn. rewrite find_nearby_airports_fst. apply nsmallest_everything.
  unfold with_distance. now rewrite length_map.
Qed.

Lemma find_nearby_airports_everything_witness :
  Permutation
    (fst (find_nearby_airports sample_airports origin "all" "A" 4))
    (with_distance origin (candidates sample_airports "all" "A")).
Proof.
  apply (find_nearby_airports_everything sample_airports origin "all" "A" 4).
  vm_compute. discriminate.
Defined.

(** ** The distances returned *)

(** X4: the distance between two airports is the same whichever of the two
    the query starts from. *)
Theorem find_nearby_airports_symmetric
    airports (a b : Airport) type_a exclude_a n_a type_b exclude_b n_b d d' :
  In (b, d)
    (fst (find_nearby_airports airports (geometry a) type_a exclude_a n_a)) ->
  In (a, d')
    (fst (find_nearby_airports airports (geometry b) type_b exclude_b n_b)) ->
  d = d'.
Proof.
  intros Hb Ha.
  apply find_nearby_airports_row in Hb, Ha. simpl in Hb, Ha.
  destruct Hb as (_ & _ & ->), Ha as (_ & _ & ->). apply distance_sym.
Qed.

Lemma find_nearby_airports_symmetric_witness : 1%float = 1%float.
Proof.
  apply (find_nearby_airports_symmetric sample_airports airport_A airport_B
           "all" "A" 4 "all" "B" 4).
  - vm_compute. left. reflexivity.
  - vm_compute. left. reflexivity.
Defined.

(** X5: on finite positions no distance returned is negative, and a row
    that lies at the reference position is returned with distance 0. *)
Theorem find_nearby_airports_nonnegative
    airports geom selected_type exclude_oaci max_results :
  Forall (fun a => finite_point (geometry a) = true) (rows airports) ->
  finite_point geom = true ->
  forall r,
    In r (fst (find_nearby_airports
                 airports geom selected_type exclude_oaci max_results)) ->
    (0 <=? snd r)%float = true /\
    (geometry (fst r) = geom -> snd r = 0%float).
Proof.
  intros Hrows Hgeom r Hr. apply find_nearby_airports_row in Hr.
  destruct Hr as (Hin & _ & ->).
  rewrite Forall_forall in Hrows. split.
  - apply distance_nonneg; auto.
  - intros ->. now apply distance_diag.
Qed.

Lemma find_nearby_airports_nonnegative_witness :
  (0 <=? 0)%float = true /\ (geometry airport_A = origin -> 0%float = 0%float).
Proof.
  apply (find_nearby_airports_nonnegative sample_airports origin "all" "ZZZZ" 4
           ltac:(repeat constructor) eq_refl (airport_A, 0%float)).
  vm_compute. left. reflexivity.
Defined.

(** ** The first row of a code *)

(** X6: a lookup answers with the first row of the table whose code is
    exactly the code asked for, and with None only when no row has it. *)
Theorem get_airport_info_first_match (airports : GeoDataFrame) (code : string) :
  match get_airport_info airports code with
  | None => Forall (fun a => code_oaci a <> Some code) (rows airports)
  | Some airport_info =>
      exists pre a post,
        rows airports = (pre ++ a :: post)%list /\
        Forall (fun a' => code_oaci a' <> Some code) pre /\
        code_oaci a = Some code /\
        airport_info =
        {| info_name := name a; info_type := type_ a;
           info_geometry := geometry a |}
  end.
Proof.
  unfold get_airport_info.
  pose proof (filter_first_split (fun a => cell_eqb (code_oaci a) code)
                (rows airports)) as H.
  destruct (filter _ (rows airports)) as [ | h t].
  - eapply Forall_impl; [ | exact H]. intros a. apply cell_eqb_false.
  - destruct H as (pre & post & Hrows & Hpre & Hh).
    exists pre, h, post. repeat split; trivial.
    + eapply Forall_impl; [ | exact Hpre]. intros a. apply cell_eqb_false.
    + now apply cell_eqb_eq.
Qed.

(** ** The map *)

Lemma create_map_loop_raises (nearby : frame Airport) (e : exn) :
  fold_left create_map_step nearby (Raises e) = Raises e.
Proof.
  induction nearby as [ | r t IH]; simpl; trivial.
Qed.

Lemma create_map_loop (nearby : frame Airport) : forall m bounds,
  fold_left create_map_step nearby (Returns (m, bounds)) =
  if existsb (fun r => nan_location (nearby_position r)) nearby
  then Raises NaNLocation
  else
    Returns
      ({| location := location m; zoom_start := zoom_start m; tiles := tiles m;
          markers := markers m ++ map nearby_marker nearby;
          fitted_bounds := fitted_bounds m |},
       (bounds ++ map nearby_position nearby)%list).
Proof.
  induction nearby as [ | r t IH]; intros m bounds; simpl.
  - rewrite !app_nil_r. now destruct m.
  - unfold create_map_step at 1, validate_location. simpl.
    destruct (nan_location (nearby_position r)); simpl.
    + apply create_map_loop_raises.
    + rewrite IH. simpl. now rewrite <- !app_assoc.
Qed.

(** The map without its loop. *)
Lemma create_map_markers lat lon airport_name (nearby : frame Airport) :
  create_map lat lon airport_name nearby =
  if nan_location (lat, lon) ||
     existsb (fun r => nan_location (nearby_position r)) nearby
  then Raises NaNLocation
  else
    Returns
      {| location := (lat, lon); zoom_start := 12; tiles := "CartoDB Positron";
         markers := main_marker lat lon airport_name :: map nearby_marker nearby;
         fitted_bounds := Some ((lat, lon) :: map nearby_position nearby) |}.
Proof.
  unfold create_map, validate_location.
  destruct (nan_location (lat, lon)); simpl; trivial.
  rewrite create_map_loop.
  destruct (existsb _ nearby); reflexivity.
Qed.

Lemma existsb_false_Forall {A : Type} (p : A -> bool) (l : list A) :
  existsb p l = false <-> Forall (fun a => p a = false) l.
Proof.
  induction l as [ | a t IH]; simpl.
  - split; [constructor | reflexivity].
  - rewrite orb_false_iff, IH. split.
    + intros [H1 H2]. now constructor.
    + intros H. inversion H. now split.
Qed.

Lemma existsb_true_Exists {A : Type} (p : A -> bool) (l : list A) :
  existsb p l = true <-> Exists (fun a => p a = true) l.
Proof.
  rewrite existsb_exists, Exists_exists. reflexivity.
Qed.

(** A map made for a row without latitude: the marker of the row is
    refused. *)
Example create_map_nan_marker :
  create_map 0 0 (Some "A") [(airport_B, 1%float); (airport_N, nan)]
  = Raises NaNLocation.
Proof. vm_compute. reflexivity. Qed.

(** X7: a map is made exactly when no location handed to folium holds a
    NaN, neither that of the airport nor that of a nearby row; otherwise
    the call raises folium's error on such a location.  The map made has
    one marker for the airport and one per nearby row, in the order of the
    rows; it is fitted to the positions of exactly these markers; only the
    first marker is blue, the others are green. *)
Theorem create_map_fits_its_markers lat lon airport_name (nearby : frame Airport) :
  match create_map lat lon airport_name nearby with
  | Returns m =>
      nan_location (lat, lon) = false /\
      Forall (fun r => nan_location (nearby_position r) = false) nearby /\
      location m = (lat, lon) /\
      List.length (markers m) = S (List.length nearby) /\
      fitted_bounds m = Some (map marker_location (markers m)) /\
      map marker_location (markers m) = (lat, lon) :: map nearby_position nearby /\
      map (fun mk => color (marker_icon mk)) (markers m) =
        "blue" :: map (fun _ => "green") nearby /\
      map tooltip (markers m) = airport_name :: map (fun r => name (fst r)) nearby
  | Raises e =>
      e = NaNLocation /\
      (nan_location (lat, lon) = true \/
       Exists (fun r => nan_location (nearby_position r) = true) nearby)
  end.
Proof.
  rewrite create_map_markers.
  destruct (nan_location (lat, lon)) eqn:E1; simpl; [now auto | ].
  destruct (existsb _ nearby) eqn:E2.
  - split; trivial. right. now apply existsb_true_Exists.
  - apply existsb_false_Forall in E2. simpl.
    rewrite length_map, !map_map. repeat split; trivial.
Qed.

(** ** The request handler, in full *)

Lemma form_get_None (key : string) (fields : list (string * string)) :
  form_get key fields = None <-> form_has key fields = false.
Proof.
  unfold form_has. induction fields as [ | [k v] t IH]; simpl; [tauto | ].
  destruct (String.eqb k key); simpl; [ | exact IH].
  split; discriminate.
Qed.

Lemma get_airport_info_None (airports : GeoDataFrame) (code : string) :
  get_airport_info airports code = None <->
  Forall (fun a => code_oaci a <> Some code) (rows airports).
Proof.
  unfold get_airport_info.
  pose proof (filter_first_split (fun a => cell_eqb (code_oaci a) code)
                (rows airports)) as H.
  destruct (filter _ (rows airports)) as [ | h t].
  - split; trivial. intros _.
    eapply Forall_impl; [ | exact H]. intros a. apply cell_eqb_false.
  - split; [discriminate | ]. intros Hall.
    destruct H as (pre & post & Hrows & _ & Hh). exfalso.
    rewrite Forall_forall in Hall. apply (Hall h).
    + rewrite Hrows, in_app_iff. right. now left.
    + now apply cell_eqb_eq.
Qed.

Lemma get_airport_info_first (airports : GeoDataFrame) (code : string) pre a post :
  rows airports = (pre ++ a :: post)%list ->
  Forall (fun a' => code_oaci a' <> Some code) pre ->
  code_oaci a = Some code ->
  get_airport_info airports code =
  Some {| info_name := name a; info_type := type_ a; info_geometry := geometry a |}.
Proof.
  intros Hrows Hpre Ha.
  assert (Hnil : filter (fun a0 => cell_eqb (code_oaci a0) code) pre = []).
  { clear Hrows. induction Hpre as [ | h t Hh _ IH]; simpl; trivial.
    apply cell_eqb_false in Hh. now rewrite Hh. }
  unfold get_airport_info. rewrite Hrows, filter_app, Hnil. simpl.
  apply cell_eqb_eq in Ha. now rewrite Ha.
Qed.

Lemma get_airport_info_rows (a1 a2 : GeoDataFrame) (code : string) :
  rows a1 = rows a2 -> get_airport_info a1 code = get_airport_info a2 code.
Proof.
  unfold get_airport_info. now intros ->.
Qed.

Lemma find_nearby_airports_rows (a1 a2 : GeoDataFrame) geom selected_type exclude_oaci n :
  rows a1 = rows a2 ->
  find_nearby_airports a1 geom selected_type exclude_oaci n =
  find_nearby_airports a2 geom selected_type exclude_oaci n.
Proof.
  unfold find_nearby_airports. now intros ->.
Qed.

Lemma find_nearby_airports_count airports geom selected_type exclude_oaci n :
  List.length (fst (find_nearby_airports airports geom selected_type exclude_oaci n)) =
  Nat.min (Z.to_nat n)
    (List.length (candidates airports selected_type exclude_oaci)).
Proof.
  rewrite find_nearby_airports_fst, nsmallest_length.
  unfold with_distance. now rewrite length_map.
Qed.

Lemma get_airport_info_Some (airports : GeoDataFrame) (code : string) info :
  get_airport_info airports code = Some info ->
  exists a,
    In a (rows airports) /\ code_oaci a = Some code /\
    info = {| info_name := name a; info_type := type_ a;
              info_geometry := geometry a |}.
Proof.
  unfold get_airport_info.
  pose proof (filter_first_split (fun a => cell_eqb (code_oaci a) code)
                (rows airports)) as H.
  destruct (filter _ (rows airports)) as [ | h t]; [discriminate | ].
  destruct H as (pre & post & Hrows & _ & Hh). intros [= <-].
  exists h. repeat split.
  - rewrite Hrows, in_app_iff. right. now left.
  - now apply cell_eqb_eq.
Qed.

Lemma find_nearby_airports_snd airports geom selected_type exclude_oaci n :
  snd (find_nearby_airports airports geom selected_type exclude_oaci n) =
  {| rows := rows airports;
     distance_column := Some (map (fun a => distance (geometry a) geom)
                                (rows airports)) |}.
Proof. reflexivity. Qed.

(** The answer to a POST whose code is found, by what the query returns. *)
Lemma index_found (srv : Server) (request : Request) (typed : string)
    (airport_info : AirportInfo) :
  method request = "POST" ->
  form_get "code_oaci" (form request) = Some typed ->
  get_airport_info (srv_airports srv) (str_upper typed) = Some airport_info ->
  forall nearby airports',
    (if form_has "show_nearby" (form request)
     then find_nearby_airports (srv_airports srv) (info_geometry airport_info)
            match form_get "airport_type" (form request) with
            | Some t => t
            | None => "all"
            end
            (str_upper typed) default_max_results
     else ([], srv_airports srv)) = (nearby, airports') ->
    index srv request =
    if nan_locations (y (info_geometry airport_info))
         (x (info_geometry airport_info)) nearby
    then inr (NaNLocation,
              {| srv_airports := airports'; map_html := map_html srv |})
    else
      inl ({| ctx_airport_name := Some (info_name airport_info);
              ctx_airport_type := Some (info_type airport_info);
              ctx_code_oaci := str_upper typed;
              ctx_map_path := Some "static/map.html" |},
           {| srv_airports := airports';
              map_html :=
                Some {| location := (y (info_geometry airport_info),
                                     x (info_geometry airport_info));
                        zoom_start := 12; tiles := "CartoDB Positron";
                        markers :=
                          main_marker (y (info_geometry airport_info))
                            (x (info_geometry airport_info))
                            (info_name airport_info)
                          :: map nearby_marker nearby;
                        fitted_bounds :=
                          Some ((y (info_geometry airport_info),
                                 x (info_geometry airport_info))
                                :: map nearby_position nearby) |} |}).
Proof.
  intros Hm Hc Hinfo nearby airports' Hq. unfold index.
  apply String.eqb_eq in Hm. rewrite Hm, Hc, Hinfo. cbv zeta. rewrite Hq.
  rewrite create_map_markers. fold (nan_locations (y (info_geometry airport_info))
    (x (info_geometry airport_info)) nearby).
  now destruct (nan_locations _ _ nearby).
Qed.

(** A request for an airport without latitude: the query has written the
    distance column when folium refuses the location, and no map is
    saved. *)
Example index_nan_airport :
  index nan_server (post_request "n" "all" true) =
  inr (NaNLocation,
       {| srv_airports :=
            {| rows := rows nan_airports;
               distance_column := Some [nan; nan; nan]%float |};
          map_html := None |}).
Proof. vm_compute. reflexivity. Qed.

(** A request whose nearby rows include one without latitude. *)
Example index_nan_nearby :
  index nan_server (post_request "a" "all" true) =
  inr (NaNLocation,
       {| srv_airports :=
            {| rows := rows nan_airports;
               distance_column := Some [0; nan; 1]%float |};
          map_html := None |}).
Proof. vm_compute. reflexivity. Qed.

(** The code typed is upper-cased as Python does it, beyond ASCII. *)
Example index_upper_beyond_ascii :
  index sample_server (post_request "é1ß" "all" false) =
  inl ({| ctx_airport_name := Some (Some "Aéroport non trouvé");
          ctx_airport_type := None;
          ctx_code_oaci := "É1SS";
          ctx_map_path := None |}, sample_server).
Proof. vm_compute. reflexivity. Qed.

(** X8: the exceptions of a request.  It raises AttributeError exactly when
    it is a POST whose form has no code field, and the server is then left
    as it was.  The only other exception is folium's refusal of a location
    that holds a NaN: it is raised only by a POST whose upper-cased code is
    found in the table, and leaves the rows of the table and the saved map
    file as they were.  A request that is not a POST never raises. *)
Theorem index_raises_without_code (srv : Server) (request : Request) :
  ((exists srv', index srv request = inr (AttributeError, srv')) <->
   method request = "POST" /\ form_has "code_oaci" (form request) = false) /\
  (forall e srv',
     index srv request = inr (e, srv') ->
     method request = "POST" /\
     match e with
     | AttributeError => srv' = srv
     | NaNLocation =>
         exists typed airport_info,
           form_get "code_oaci" (form request) = Some typed /\
           get_airport_info (srv_airports srv) (str_upper typed)
             = Some airport_info /\
           rows (srv_airports srv') = rows (srv_airports srv) /\
           map_html srv' = map_html srv
     | BadCoordinate => False
     end).
Proof.
  unfold index. rewrite <- form_get_None.
  destruct (String.eqb (method request) "POST") eqn:Em.
  2:{ apply String.eqb_neq in Em. split.
      - split; [intros [srv' H]; discriminate H | intros [H _]; contradiction].
      - intros e srv' H. discriminate H. }
  apply String.eqb_eq in Em.
  destruct (form_get "code_oaci" (form request)) as [typed | ].
  2:{ split.
      - split; eauto.
      - intros e srv' [= <- <-]. now split. }
  destruct (get_airport_info (srv_airports srv) (str_upper typed))
    as [airport_info | ] eqn:Hinfo.
  2:{ split.
      - split; [intros [srv' H]; discriminate H | intros [_ H]; discriminate H].
      - intros e srv' H. discriminate H. }
  assert (Hq : exists nearby airports',
             (if form_has "show_nearby" (form request)
              then find_nearby_airports (srv_airports srv)
                     (info_geometry airport_info)
                     match form_get "airport_type" (form request) with
                     | Some t => t
                     | None => "all"
                     end
                     (str_upper typed) default_max_results
              else ([], srv_airports srv)) = (nearby, airports') /\
             rows airports' = rows (srv_airports srv)).
  { destruct (form_has "show_nearby" (form request)).
    - do 2 eexists. split; [apply surjective_pairing | ].
      now rewrite find_nearby_airports_snd.
    - do 2 eexists. split; reflexivity. }
  destruct Hq as (nearby & airports' & Hq & Hrows). cbv zeta. rewrite Hq.
  rewrite create_map_markers.
  destruct (nan_location _ || existsb _ nearby).
  - split.
    + split; [intros [srv' H]; discriminate H | intros [_ H]; discriminate H].
    + intros e srv' [= <- <-]. split; trivial.
      exists typed, airport_info. repeat split; trivial.
  - split.
    + split; [intros [srv' H]; discriminate H | intros [_ H]; discriminate H].
    + intros e srv' H. discriminate H.
Qed.

(** X9: for a POST with a code, the answer is the not-found message, with
    no map, exactly when no row of the table has the code as Python's
    str.upper makes it; the table and the saved map file are then left as
    they were. *)
Theorem index_not_found (srv : Server) (request : Request) (typed : string) :
  method request = "POST" ->
  form_get "code_oaci" (form request) = Some typed ->
  (Forall (fun a => code_oaci a <> Some (str_upper typed))
     (rows (srv_airports srv)) <->
   index srv request =
   inl ({| ctx_airport_name := Some (Some "Aéroport non trouvé");
           ctx_airport_type := None;
           ctx_code_oaci := str_upper typed;
           ctx_map_path := None |}, srv)).
Proof.
  intros Hm Hc. rewrite <- get_airport_info_None.
  destruct (get_airport_info (srv_airports srv) (str_upper typed))
    as [info | ] eqn:Hinfo.
  - split; [discriminate | ]. intros H. exfalso.
    rewrite (index_found srv request typed info Hm Hc Hinfo _ _
               (surjective_pairing _)) in H.
    destruct (nan_locations _ _ _); discriminate H.
  - split; trivial. intros _. unfold index.
    apply String.eqb_eq in Hm. now rewrite Hm, Hc, Hinfo.
Qed.

Lemma index_not_found_witness :
  index sample_server (post_request "zzzz" "all" true) =
  inl ({| ctx_airport_name := Some (Some "Aéroport non trouvé");
          ctx_airport_type := None;
          ctx_code_oaci := str_upper "zzzz";
          ctx_map_path := None |}, sample_server).
Proof.
  apply (proj1 (index_not_found sample_server (post_request "zzzz" "all" true) "zzzz"
                  eq_refl eq_refl)).
  repeat constructor; vm_compute; discriminate.
Defined.

(** X10: for a POST whose code, upper-cased by Python's str.upper, is in
    the table, the airport shown is the first row with that code.  The
    nearby rows are those of the query when the nearby option is set, none
    otherwise; there are at most four, and the rows of the table are left
    as they were.  When the position of the airport or of a nearby row
    holds a NaN, the request raises folium's error, the table is left as
    the query left it and no map is saved.  Otherwise the answer names the
    row and the map file; the map saved is centred on the row, its first
    marker is the row's blue marker, it has at most five markers and is
    fitted to them. *)
Theorem index_shows_airport (srv : Server) (request : Request) (typed : string)
    pre a post :
  method request = "POST" ->
  form_get "code_oaci" (form request) = Some typed ->
  rows (srv_airports srv) = (pre ++ a :: post)%list ->
  Forall (fun a' => code_oaci a' <> Some (str_upper typed)) pre ->
  code_oaci a = Some (str_upper typed) ->
  exists nearby airports',
    (if form_has "show_nearby" (form request)
     then find_nearby_airports (srv_airports srv) (geometry a)
            match form_get "airport_type" (form request) with
            | Some t => t
            | None => "all"
            end
            (str_upper typed) default_max_results
     else ([], srv_airports srv)) = (nearby, airports') /\
    rows airports' = rows (srv_airports srv) /\
    (List.length nearby <= 4)%nat /\
    if nan_locations (y (geometry a)) (x (geometry a)) nearby
    then
      index srv request =
      inr (NaNLocation,
           {| srv_airports := airports'; map_html := map_html srv |})
    else
      exists m,
        index srv request =
        inl ({| ctx_airport_name := Some (name a);
                ctx_airport_type := Some (type_ a);
                ctx_code_oaci := str_upper typed;
                ctx_map_path := Some "static/map.html" |},
             {| srv_airports := airports'; map_html := Some m |}) /\
        location m = (y (geometry a), x (geometry a)) /\
        hd_error (markers m) =
          Some (main_marker (y (geometry a)) (x (geometry a)) (name a)) /\
        (List.length (markers m) <= 5)%nat /\
        fitted_bounds m = Some (map marker_location (markers m)).
Proof.
  intros Hm Hc Hrows Hpre Ha.
  pose proof (get_airport_info_first _ _ pre a post Hrows Hpre Ha) as Hinfo.
  pose proof (index_found srv request typed _ Hm Hc Hinfo) as Hindex.
  cbn [info_geometry info_name info_type] in Hindex.
  set (selected_type := match form_get "airport_type" (form request) with
                        | Some t => t | None => "all" end) in *.
  assert (Hq : exists nearby airports',
             (if form_has "show_nearby" (form request)
              then find_nearby_airports (srv_airports srv) (geometry a)
                     selected_type (str_upper typed) default_max_results
              else ([], srv_airports srv)) = (nearby, airports') /\
             rows airports' = rows (srv_airports srv) /\
             (List.length nearby <= 4)%nat).
  { destruct (form_has "show_nearby" (form request)).
    - do 2 eexists. split; [apply surjective_pairing | ].
      rewrite find_nearby_airports_snd, find_nearby_airports_count.
      split; [reflexivity | ]. unfold default_max_results. lia.
    - do 2 eexists. split; [reflexivity | ]. split; [reflexivity | ].
      simpl. lia. }
  destruct Hq as (nearby & airports' & Hq & Hr & Hlen).
  exists nearby, airports'. split; [exact Hq | split; [exact Hr | split; [exact Hlen | ]]].
  rewrite (Hindex nearby airports' Hq).
  destruct (nan_locations _ _ nearby); [reflexivity | ].
  eexists. split; [reflexivity | ].
  cbn [location markers fitted_bounds hd_error List.length map marker_location
       main_marker].
  rewrite length_map, map_map. repeat split; trivial. lia.
Qed.

Lemma index_shows_airport_witness :
  exists nearby airports',
    (if form_has "show_nearby" (form (post_request "b" "all" true))
     then find_nearby_airports (srv_airports sample_server) (geometry airport_B)
            match form_get "airport_type" (form (post_request "b" "all" true)) with
            | Some t => t
            | None => "all"
            end
            (str_upper "b") default_max_results
     else ([], srv_airports sample_server)) = (nearby, airports') /\
    rows airports' = rows (srv_airports sample_server) /\
    (List.length nearby <= 4)%nat /\
    if nan_locations (y (geometry airport_B)) (x (geometry airport_B)) nearby
    then
      index sample_server (post_request "b" "all" true) =
      inr (NaNLocation,
           {| srv_airports := airports'; map_html := map_html sample_server |})
    else
      exists m,
        index sample_server (post_request "b" "all" true) =
        inl ({| ctx_airport_name := Some (name airport_B);
                ctx_airport_type := Some (type_ airport_B);
                ctx_code_oaci := str_upper "b";
                ctx_map_path := Some "static/map.html" |},
             {| srv_airports := airports'; map_html := Some m |}) /\
        location m = (y (geometry airport_B), x (geometry airport_B)) /\
        hd_error (markers m) =
          Some (main_marker (y (geometry airport_B)) (x (geometry airport_B))
                  (name airport_B)) /\
        (List.length (markers m) <= 5)%nat /\
        fitted_bounds m = Some (map marker_location (markers m)).
Proof.
  apply (index_shows_airport sample_server (post_request "b" "all" true) "b"
           [airport_A] airport_B [airport_C] eq_refl eq_refl eq_refl).
  - repeat constructor. vm_compute. discriminate.
  - vm_compute. reflexivity.
Defined.

(** X11: without the nearby option the query is not run.  When the
    airport's position holds no NaN, the table is left exactly as it was,
    distance column included, and the map saved has the airport's marker
    alone and is fitted to it; when it holds one, the request raises
    folium's error and the server is left exactly as it was. *)
Theorem index_without_nearby (srv : Server) (request : Request)
    (typed : string) (airport_info : AirportInfo) :
  method request = "POST" ->
  form_get "code_oaci" (form request) = Some typed ->
  form_has "show_nearby" (form request) = false ->
  get_airport_info (srv_airports srv) (str_upper typed) = Some airport_info ->
  if nan_location (y (info_geometry airport_info), x (info_geometry airport_info))
  then index srv request = inr (NaNLocation, srv)
  else
    exists ctx m,
      index srv request =
      inl (ctx, {| srv_airports := srv_airports srv; map_html := Some m |}) /\
      markers m =
        [main_marker (y (info_geometry airport_info))
           (x (info_geometry airport_info)) (info_name airport_info)] /\
      fitted_bounds m = Some [location m].
Proof.
  intros Hm Hc Hs Hinfo.
  pose proof (index_found srv request typed _ Hm Hc Hinfo [] (srv_airports srv))
    as Hindex.
  rewrite Hs in Hindex. specialize (Hindex eq_refl). rewrite Hindex.
  unfold nan_locations. cbn [existsb]. rewrite orb_false_r.
  destruct (nan_location _).
  - now destruct srv.
  - do 2 eexists. split; [reflexivity | ]. split; reflexivity.
Qed.

Lemma index_without_nearby_witness :
  if nan_location (y (info_geometry
                        {| info_name := Some "B"; info_type := Some "medium_airport";
                           info_geometry := {| x := 1; y := 0 |} |}),
                   x (info_geometry
                        {| info_name := Some "B"; info_type := Some "medium_airport";
                           info_geometry := {| x := 1; y := 0 |} |}))
  then index sample_server (post_request "b" "all" false)
       = inr (NaNLocation, sample_server)
  else
    exists ctx m,
      index sample_server (post_request "b" "all" false) =
      inl (ctx, {| srv_airports := srv_airports sample_server;
                   map_html := Some m |}) /\
      markers m = [main_marker 0 1 (Some "B")] /\
      fitted_bounds m = Some [location m].
Proof.
  apply (index_without_nearby sample_server (post_request "b" "all" false) "b"
           {| info_name := Some "B"; info_type := Some "medium_airport";
              info_geometry := {| x := 1; y := 0 |} |}
           eq_refl eq_refl eq_refl).
  vm_compute. reflexivity.
Defined.

(** X12: with the nearby option the query is run for the airport found,
    with the type chosen and the airport's code excluded.  It returns at
    most four rows, each a row of the table whose code is not the code
    looked up and, unless the type chosen is "all", whose type is the one
    chosen; the table's distance column then holds the distances to the
    airport, whether the request is answered or raises.  When no position
    among the airport and these rows holds a NaN, the map saved has, after
    the airport's marker, one green marker per row returned; otherwise the
    request raises folium's error and the saved map file is left as it
    was. *)
Theorem index_with_nearby (srv : Server) (request : Request)
    (typed : string) (airport_info : AirportInfo) :
  method request = "POST" ->
  form_get "code_oaci" (form request) = Some typed ->
  form_has "show_nearby" (form request) = true ->
  get_airport_info (srv_airports srv) (str_upper typed) = Some airport_info ->
  let selected_type :=
    match form_get "airport_type" (form request) with
    | Some t => t
    | None => "all"
    end in
  exists nearby airports',
    find_nearby_airports (srv_airports srv) (info_geometry airport_info)
      selected_type (str_upper typed) 4 = (nearby, airports') /\
    List.length nearby =
      Nat.min 4 (List.length
                   (candidates (srv_airports srv) selected_type (str_upper typed))) /\
    Forall (fun r =>
              In (fst r) (rows (srv_airports srv)) /\
              code_oaci (fst r) <> Some (str_upper typed) /\
              (selected_type <> "all" -> type_ (fst r) = Some selected_type))
      nearby /\
    rows airports' = rows (srv_airports srv) /\
    distance_column airports' =
      Some (map (fun a => distance (geometry a) (info_geometry airport_info))
              (rows (srv_airports srv))) /\
    if nan_locations (y (info_geometry airport_info))
         (x (info_geometry airport_info)) nearby
    then
      index srv request =
      inr (NaNLocation,
           {| srv_airports := airports'; map_html := map_html srv |})
    else
      exists ctx m,
        index srv request =
        inl (ctx, {| srv_airports := airports'; map_html := Some m |}) /\
        markers m =
          main_marker (y (info_geometry airport_info))
            (x (info_geometry airport_info)) (info_name airport_info)
          :: map nearby_marker nearby.
Proof.
  intros Hm Hc Hs Hinfo selected_type.
  pose proof (index_found srv request typed _ Hm Hc Hinfo) as Hindex.
  rewrite Hs in Hindex. fold selected_type in Hindex.
  change default_max_results with 4 in Hindex.
  pose proof (find_nearby_airports_count (srv_airports srv)
                (info_geometry airport_info) selected_type (str_upper typed) 4)
    as Hlen.
  assert (Hrow : forall r,
             In r (fst (find_nearby_airports (srv_airports srv)
                          (info_geometry airport_info) selected_type
                          (str_upper typed) 4)) ->
             In (fst r) (rows (srv_airports srv)) /\
             code_oaci (fst r) <> Some (str_upper typed) /\
             (selected_type <> "all" -> type_ (fst r) = Some selected_type)).
  { intros r Hr. apply find_nearby_airports_row in Hr.
    destruct Hr as (Hin & Hq & _). split; trivial.
    unfold qualifies in Hq. apply andb_true_iff in Hq. destruct Hq as [Hc' Ht].
    split; [now apply cell_neb_neq | ].
    intros Hsel. apply String.eqb_neq in Hsel. rewrite Hsel in Ht.
    now apply cell_eqb_eq. }
  pose proof (find_nearby_airports_snd (srv_airports srv)
                (info_geometry airport_info) selected_type (str_upper typed) 4)
    as Hsnd.
  destruct (find_nearby_airports _ _ _ _ _) as [nearby airports'].
  cbn [fst snd] in Hlen, Hrow, Hsnd.
  exists nearby, airports'.
  split; [reflexivity | split; [exact Hlen | split; [ | split; [ | split]]]].
  - apply Forall_forall. exact Hrow.
  - now rewrite Hsnd.
  - now rewrite Hsnd.
  - rewrite (Hindex nearby airports' eq_refl).
    destruct (nan_locations _ _ nearby); [reflexivity | ].
    do 2 eexists. split; reflexivity.
Qed.

Lemma index_with_nearby_witness :
  exists nearby airports',
    find_nearby_airports (srv_airports nan_server) origin
      "all" (str_upper "a") 4 = (nearby, airports') /\
    List.length nearby =
      Nat.min 4 (List.length
                   (candidates (srv_airports nan_server) "all" (str_upper "a"))) /\
    Forall (fun r =>
              In (fst r) (rows (srv_airports nan_server)) /\
              code_oaci (fst r) <> Some (str_upper "a") /\
              ("all" <> "all" -> type_ (fst r) = Some "all"))
      nearby /\
    rows airports' = rows (srv_airports nan_server) /\
    distance_column airports' =
      Some (map (fun a => distance (geometry a) origin)
              (rows (srv_airports nan_server))) /\
    if nan_locations (y origin) (x origin) nearby
    then
      index nan_server (post_request "a" "all" true) =
      inr (NaNLocation,
           {| srv_airports := airports'; map_html := map_html nan_server |})
    else
      exists ctx m,
        index nan_server (post_request "a" "all" true) =
        inl (ctx, {| srv_airports := airports'; map_html := Some m |}) /\
        markers m = main_marker (y origin) (x origin) (Some "A")
                    :: map nearby_marker nearby.
Proof.
  apply (index_with_nearby nan_server (post_request "a" "all" true) "a"
           {| info_name := Some "A"; info_type := Some "large_airport";
              info_geometry := origin |}
           eq_refl eq_refl eq_refl).
  vm_compute. reflexivity.
Defined.

(** X14: the code of the form is read without regard to case: typing a
    code or its upper-case form gives the same answer and the same
    server. *)
Theorem index_ignores_case (srv : Server) (typed selected_type : string)
    (show_nearby : bool) :
  index srv (post_request typed selected_type show_nearby) =
  index srv (post_request (upper typed) selected_type show_nearby).
Proof.
  unfold index, post_request. cbn [method form form_get String.eqb Ascii.eqb Bool.eqb].
  simpl form_get. simpl form_has. now rewrite str_upper_upper.
Qed.

(** ** Requests in sequence *)

Lemma index_keeps_rows (srv : Server) (request : Request) :
  match index srv request with
  | inl (_, srv') | inr (_, srv') =>
      rows (srv_airports srv') = rows (srv_airports srv)
  end.
Proof.
  unfold index.
  destruct (String.eqb (method request) "POST"); [ | reflexivity].
  destruct (form_get "code_oaci" (form request)) as [typed | ]; [ | reflexivity].
  destruct (get_airport_info _ _) as [info | ]; [ | reflexivity].
  cbv zeta. destruct (form_has "show_nearby" (form request)).
  - pose proof (find_nearby_airports_snd (srv_airports srv) (info_geometry info)
                  match form_get "airport_type" (form request) with
                  | Some t => t
                  | None => "all"
                  end (str_upper typed) default_max_results) as Hsnd.
    destruct (find_nearby_airports _ _ _ _ _) as [nearby airports'].
    cbn [snd] in Hsnd. rewrite Hsnd.
    now destruct (create_map _ _ _ nearby).
  - now destruct (create_map _ _ _ []).
Qed.

Lemma serve_keeps_rows (requests : list Request) : forall srv,
  rows (srv_airports (serve srv requests)) = rows (srv_airports srv).
Proof.
  induction requests as [ | request t IH]; intros srv; simpl; trivial.
  pose proof (index_keeps_rows srv request) as H.
  destruct (index srv request) as [[ctx srv'] | [e srv']]; now rewrite IH.
Qed.

(** The answer to a request reads nothing of the server but the rows of
    its table. *)
Lemma index_reads_rows_only (s1 s2 : Server) (request : Request) :
  rows (srv_airports s1) = rows (srv_airports s2) ->
  match index s1 request, index s2 request with
  | inl (c1, t1), inl (c2, t2) =>
      c1 = c2 /\ (ctx_map_path c1 <> None -> map_html t1 = map_html t2)
  | inr (e1, _), inr (e2, _) => e1 = e2
  | _, _ => False
  end.
Proof.
  intros Hrows. unfold index.
  destruct (String.eqb (method request) "POST");
    [ | split; [reflexivity | intros H; now contradiction H]].
  destruct (form_get "code_oaci" (form request)) as [typed | ]; [ | reflexivity].
  rewrite (get_airport_info_rows _ _ (str_upper typed) Hrows).
  destruct (get_airport_info (srv_airports s2) (str_upper typed)) as [info | ];
    [ | split; [reflexivity | intros H; now contradiction H]].
  cbv zeta. destruct (form_has "show_nearby" (form request)).
  - rewrite (find_nearby_airports_rows _ _ _ _ _ _ Hrows).
    destruct (find_nearby_airports _ _ _ _ _) as [nearby airports'].
    destruct (create_map _ _ _ nearby); [split | ]; reflexivity.
  - destruct (create_map _ _ _ []); [split | ]; reflexivity.
Qed.

(** X13: whatever requests were handled before, answered or not, the rows
    of the table are those of the start, and a request is answered as it
    would be on the server of the start: the same template variables, the
    same map saved when one is saved, the same exception when it raises. *)
Theorem index_after_any_history (srv : Server) (history : list Request)
    (request : Request) :
  rows (srv_airports (serve srv history)) = rows (srv_airports srv) /\
  match index (serve srv history) request, index srv request with
  | inl (c1, t1), inl (c2, t2) =>
      c1 = c2 /\ (ctx_map_path c1 <> None -> map_html t1 = map_html t2)
  | inr (e1, _), inr (e2, _) => e1 = e2
  | _, _ => False
  end.
Proof.
  split; [apply serve_keeps_rows | ].
  apply index_reads_rows_only, serve_keeps_rows.
Qed.

(** ** From the source rows to the markers *)

Lemma Forall2_In_r {A B : Type} (R : A -> B -> Prop) (l : list A) (l' : list B) b :
  Forall2 R l l' -> In b l' -> exists a, In a l /\ R a b.
Proof.
  induction 1 as [ | a0 b0 l l' Hab _ IH]; simpl; [contradiction | ].
  intros [<- | Hb].
  - exists a0. split; [now left | exact Hab].
  - destruct (IH Hb) as (a & Ha & Hr). exists a. split; [now right | exact Hr].
Qed.

Lemma loaded_row_position (df : list CsvRow) (l : list Airport) (a : Airport) :
  Forall2 loaded_from df l -> In a l ->
  exists r,
    In r df /\
    coordinate (latitude_deg r) = Some (y (geometry a)) /\
    coordinate (longitude_deg r) = Some (x (geometry a)).
Proof.
  intros Hl Ha. destruct (Forall2_In_r _ _ _ _ Hl Ha) as (r & Hr & Hra).
  exists r. split; trivial. unfold loaded_from in Hra.
  destruct Hra as (_ & _ & _ & Hlat & Hlon & _ & Hx & Hy).
  split; congruence.
Qed.

(** X15: on a table loaded from a source, every marker of a map saved by a
    request, blue or green, stands at the latitude and the longitude, in
    this order, of a row of the source (the numbers of the row's two
    coordinate fields). *)
Theorem index_markers_at_source_positions
    (df : list CsvRow) (airports : GeoDataFrame)
    (srv : Server) (request : Request) ctx srv' m :
  load df = Returns airports ->
  rows (srv_airports srv) = rows airports ->
  index srv request = inl (ctx, srv') ->
  ctx_map_path ctx <> None ->
  map_html srv' = Some m ->
  Forall (fun mk =>
            exists r,
              In r df /\
              coordinate (latitude_deg r) = Some (fst (marker_location mk)) /\
              coordinate (longitude_deg r) = Some (snd (marker_location mk)))
    (markers m).
Proof.
  intros Hload Hrows Hindex Hpath Hmap.
  apply load_Returns in Hload. destruct Hload as [Hl _]. rewrite <- Hrows in Hl.
  destruct (String.eqb (method request) "POST") eqn:Hm.
  2:{ unfold index in Hindex. rewrite Hm in Hindex.
      injection Hindex as <- _. now contradiction Hpath. }
  apply String.eqb_eq in Hm.
  destruct (form_get "code_oaci" (form request)) as [typed | ] eqn:Hc.
  2:{ unfold index in Hindex. apply String.eqb_eq in Hm.
      rewrite Hm, Hc in Hindex. discriminate Hindex. }
  destruct (get_airport_info (srv_airports srv) (str_upper typed))
    as [info | ] eqn:Hinfo.
  2:{ unfold index in Hindex. apply String.eqb_eq in Hm.
      rewrite Hm, Hc, Hinfo in Hindex.
      injection Hindex as <- _. now contradiction Hpath. }
  rewrite (index_found srv request typed info Hm Hc Hinfo _ _
             (surjective_pairing _)) in Hindex.
  apply get_airport_info_Some in Hinfo. destruct Hinfo as (a & Ha & _ & ->).
  cbn [info_geometry info_name info_type] in Hindex.
  destruct (nan_locations _ _ _); [discriminate Hindex | ].
  injection Hindex as _ <-. cbn [map_html] in Hmap. injection Hmap as <-.
  cbn [markers]. constructor.
  - apply (loaded_row_position df _ a Hl Ha).
  - apply Forall_map, Forall_forall. intros r Hr.
    apply (loaded_row_position df _ (fst r) Hl).
    destruct (form_has "show_nearby" (form request)); [ | contradiction Hr].
    now apply find_nearby_airports_row in Hr.
Qed.

Lemma index_markers_at_source_positions_witness :
  Forall (fun mk =>
            exists r,
              In r sample_source /\
              coordinate (latitude_deg r) = Some (fst (marker_location mk)) /\
              coordinate (longitude_deg r) = Some (snd (marker_location mk)))
    (markers sample_map_B).
Proof.
  apply (index_markers_at_source_positions sample_source sample_airports
           sample_server (post_request "b" "all" true)
           {| ctx_airport_name := Some (Some "B");
              ctx_airport_type := Some (Some "medium_airport");
              ctx_code_oaci := "B";
              ctx_map_path := Some "static/map.html" |}
           {| srv_airports :=
                {| rows := rows sample_airports;
                   distance_column := Some [1; 0; 1]%float |};
              map_html := Some sample_map_B |}
           sample_map_B eq_refl eq_refl).
  - vm_compute. reflexivity.
  - discriminate.
  - reflexivity.
Defined.

(** ** The distance printed in a popup *)

Lemma hundredths_nearest (m : positive) (e : Z) :
  0 <= hundredths m e /\
  (0 <= e -> hundredths m e = 100 * Z.pos m * 2 ^ e) /\
  (e < 0 ->
   Z.abs (2 * (100 * Z.pos m) - 2 * hundredths m e * 2 ^ (- e)) <= 2 ^ (- e)).
Proof.
  unfold hundredths. destruct (0 <=? e) eqn:He.
  - apply Z.leb_le in He. split; [ | split; [reflexivity | lia]].
    apply Z.mul_nonneg_nonneg; [lia | now apply Z.pow_nonneg].
  - apply Z.leb_gt in He.
    assert (Hd : 0 < 2 ^ (- e)) by (apply Z.pow_pos_nonneg; lia).
    set (d := 2 ^ (- e)) in *. set (n := 100 * Z.pos m).
    assert (Hn : 0 <= n) by (unfold n; lia).
    pose proof (Z.div_mod n d ltac:(lia)) as Hdiv.
    pose proof (Z.mod_pos_bound n d Hd) as Hmod.
    pose proof (Z.div_pos n d Hn Hd) as Hq.
    split; [ | split; [lia | intros _]].
    + destruct (2 * (n mod d) <? d); [lia | ].
      destruct (d <? 2 * (n mod d)); [lia | ].
      destruct (Z.even (n / d)); lia.
    + destruct (2 * (n mod d) <? d) eqn:E1.
      * apply Z.ltb_lt in E1. nia.
      * apply Z.ltb_ge in E1. destruct (d <? 2 * (n mod d)) eqn:E2.
        -- apply Z.ltb_lt in E2. nia.
        -- apply Z.ltb_ge in E2. destruct (Z.even (n / d)); nia.
Qed.

(** X16: the popup of a nearby marker reads the name, then between
    brackets the distance with two decimals and the unit km; for a distance
    of exact value m * 2^e the number printed is the nearest hundredth:
    exact when e is not negative, within half a hundredth otherwise. *)
Theorem nearby_marker_popup (r : Airport * float) (s : bool) (m : positive) (e : Z) :
  Prim2SF (snd r) = S754_finite s m e ->
  exists h,
    popup (nearby_marker r) =
      Some (cell_str (name (fst r)) ++ " (" ++
            (sign_str s ++ fixed_2 h) ++ " km)") /\
    0 <= h /\
    (0 <= e -> h = 100 * Z.pos m * 2 ^ e) /\
    (e < 0 -> Z.abs (2 * (100 * Z.pos m) - 2 * h * 2 ^ (- e)) <= 2 ^ (- e)).
Proof.
  intros Hf. exists (hundredths m e). split.
  - unfold nearby_marker, format_2f. cbn [popup]. now rewrite Hf.
  - apply hundredths_nearest.
Qed.

Lemma nearby_marker_popup_witness :
  exists h,
    popup (nearby_marker (airport_C, 2.5%float)) =
      Some (cell_str (name airport_C) ++ " (" ++
            (sign_str false ++ fixed_2 h) ++ " km)") /\
    0 <= h /\
    (0 <= -51 -> h = 100 * 5629499534213120 * 2 ^ (-51)) /\
    (-51 < 0 ->
     Z.abs (2 * (100 * 5629499534213120) - 2 * h * 2 ^ (- -51)) <= 2 ^ (- -51)).
Proof.
  apply (nearby_marker_popup (airport_C, 2.5%float) false 5629499534213120 (-51)).
  vm_compute. reflexivity.
Defined.

